(** * app.py: the agentic / non-agentic comparison, its router and its calculator tool

    A shallow embedding of the decision logic of [src/app.py]:
    - the string methods the router uses ([str.lower], [in], [str.replace],
      [str.strip], [str.join]);
    - the routing test and the expression extraction of [run_agent];
    - [simple_calculator], i.e. a [try: eval(expression) ... except Exception],
      over a fragment of Python's expression evaluator;
    - [run_agent], [run_non_agentic_llm] and the button handler that runs both,
      with the text generator as the one external call.

    Scope of the model.  A Python [str] is a sequence of code points; here it is
    a [string], whose characters are the code points 0..255 (Latin-1), the range
    on which [str.lower] is a character-by-character map.  [eval] is the
    interpreter's, not the repository's: [Py] below embeds the fragment of it
    that the development relies on and answers [Unmodelled] everywhere else. *)

From Stdlib Require Import ZArith NArith Bool List String Ascii Lia.
From Stdlib Require Import DecimalString Floats Uint63.
Import ListNotations.

Local Open Scope string_scope.
Local Open Scope bool_scope.

(* ================================================================= *)
(** ** Python's [str] methods *)

Module Str.

(** Code point of a character. *)
Definition ord (c : ascii) : N := N_of_ascii c.

(** [str.lower] on one Latin-1 code point: A..Z and the accented capitals
    U+00C0..U+00DE (the multiplication sign U+00D7 has no case) move up by 32. *)
Definition lower_char (c : ascii) : ascii :=
  let n := ord c in
  if ((65 <=? n) && (n <=? 90))%N
     || ((192 <=? n) && (n <=? 222) && negb (n =? 215))%N
  then ascii_of_N (n + 32)
  else c.

(** [s.lower()] *)
Fixpoint lower (s : string) : string :=
  match s with
  | EmptyString => EmptyString
  | String c s' => String (lower_char c) (lower s')
  end.

(** [c.isspace()] on a Latin-1 code point: TAB..CR, FS..US, space, NEL, NBSP. *)
Definition isspace (c : ascii) : bool :=
  let n := ord c in
  (((9 <=? n) && (n <=? 13)) || ((28 <=? n) && (n <=? 32))
   || (n =? 133) || (n =? 160))%N.

(** [s.startswith(p)] *)
Fixpoint startswith (p s : string) : bool :=
  match p, s with
  | EmptyString, _ => true
  | String _ _, EmptyString => false
  | String a p', String b s' => Ascii.eqb a b && startswith p' s'
  end.

(** [sub in s]: [sub] occurs in [s] as a contiguous substring. *)
Fixpoint contains (sub s : string) : bool :=
  startswith sub s
  || match s with
     | EmptyString => false
     | String _ s' => contains sub s'
     end.

(** [any(op in s for op in ops)] *)
Definition any_in (ops : list string) (s : string) : bool :=
  existsb (fun op => contains op s) ops.

(** The scan of [s.replace(old, new)] for a non-empty [old]: left to right,
    occurrences do not overlap.  [skip] counts the characters of the occurrence
    just replaced that are still to be passed over. *)
Fixpoint replace_scan (old new : string) (skip : nat) (s : string) : string :=
  match s with
  | EmptyString => EmptyString
  | String c s' =>
      match skip with
      | S k => replace_scan old new k s'
      | O =>
          if startswith old s
          then new ++ replace_scan old new (String.length old - 1) s'
          else String c (replace_scan old new 0 s')
      end
  end.

(** [s.replace("", new)]: [new] goes before every character and at the end. *)
Fixpoint intersperse (new s : string) : string :=
  match s with
  | EmptyString => new
  | String c s' => new ++ String c (intersperse new s')
  end.

(** [s.replace(old, new)] *)
Definition replace (old new s : string) : string :=
  match old with
  | EmptyString => intersperse new s
  | String _ _ => replace_scan old new 0 s
  end.

(** [s.lstrip()] *)
Fixpoint lstrip (s : string) : string :=
  match s with
  | EmptyString => EmptyString
  | String c s' => if isspace c then lstrip s' else s
  end.

(** [s.rstrip()] *)
Fixpoint rstrip (s : string) : string :=
  match s with
  | EmptyString => EmptyString
  | String c s' =>
      match rstrip s' with
      | EmptyString => if isspace c then EmptyString else String c EmptyString
      | r => String c r
      end
  end.

(** [s.strip()] *)
Definition strip (s : string) : string := rstrip (lstrip s).

(** [sep.join(parts)] *)
Definition join (sep : string) (parts : list string) : string :=
  String.concat sep parts.

End Str.

(* ================================================================= *)
(** ** The router of [run_agent] *)

(** The operator characters of the routing test, [["+", "-", "*", "/"]]. *)
Definition operators : list string := ["+"; "-"; "*"; "/"].

(** The condition of the [if] in [run_agent]. *)
Definition is_calculation_request (query : string) : bool :=
  Str.contains "calculate" (Str.lower query)
  || (Str.contains "what is" (Str.lower query) && Str.any_in operators query).

(** The two assignments to [expression] in [run_agent]. *)
Definition extract (query : string) : string :=
  let expression :=
    Str.strip (Str.replace "what is" "" (Str.replace "calculate" "" (Str.lower query))) in
  Str.strip (Str.replace "the result of" "" (Str.replace "?" "" expression)).

(** What one call of [run_agent] decides: the tool with the extracted
    expression, or the generator with the query. *)
Inductive Intent : Type :=
| ToolInvocation (expression : string)
| GenerationRequest (prompt : string).

Definition classify (query : string) : Intent :=
  if is_calculation_request query
  then ToolInvocation (extract query)
  else GenerationRequest query.

(* ================================================================= *)
(** ** The fragment of Python's [eval] *)

Module Py.

(** Objects an expression of the fragment evaluates to. *)
Inductive value : Type :=
| VInt (z : Z)
| VFloat (f : float)
| VStr (s : string).

(** Exceptions.  [SyntaxError] carries the source it was raised for,
    [ZeroDivisionError] whether a float operand was involved (the text
    differs), [Other] is whatever the text generator raises. *)
Inductive exn : Type :=
| SyntaxError (source : string)
| ZeroDivisionError (float_operand : bool)
| IndexError
| SystemExit
| Other (is_exception : bool) (text : string).

(** [isinstance(e, Exception)]: [SystemExit] derives from [BaseException] only. *)
Definition derives_from_Exception (e : exn) : bool :=
  match e with
  | SystemExit => false
  | Other b _ => b
  | SyntaxError _ | ZeroDivisionError _ | IndexError => true
  end.

(** The texts that depend on the interpreter's version. *)
Record messages : Type := {
  syntax_error_text : string -> string;
  float_zero_division_text : string
}.

(** [str(e)] *)
Definition exn_str (M : messages) (e : exn) : string :=
  match e with
  | SyntaxError source => syntax_error_text M source
  | ZeroDivisionError false => "division by zero"
  | ZeroDivisionError true => float_zero_division_text M
  | IndexError => "list index out of range"
  | SystemExit => "None"
  | Other _ text => text
  end.

(** How a call ends: with a result, with an exception, or outside the
    fragment of the interpreter modelled here (no statement is made). *)
Inductive outcome (A : Type) : Type :=
| Returns (a : A)
| Raises (e : exn)
| Unmodelled.
Arguments Returns {A} a.
Arguments Raises {A} e.
Arguments Unmodelled {A}.

(* ----------------------------------------------------------------- *)
(** *** Literals *)

Definition is_digit (c : ascii) : bool :=
  let n := Str.ord c in ((48 <=? n) && (n <=? 57))%N.

(** ASCII letters and the underscore. *)
Definition is_name_start (c : ascii) : bool :=
  let n := Str.ord c in
  (((65 <=? n) && (n <=? 90)) || ((97 <=? n) && (n <=? 122)) || (n =? 95))%N.

Definition digit_value (c : ascii) : Z := Z.of_N (Str.ord c) - 48.

Fixpoint digits_value_from (acc : Z) (ds : string) : Z :=
  match ds with
  | EmptyString => acc
  | String c ds' => digits_value_from (10 * acc + digit_value c) ds'
  end.

Definition digits_value (ds : string) : Z := digits_value_from 0 ds.

(** [sys.get_int_max_str_digits()], the default of CPython 3.11 and later:
    longer decimal literals and renderings are refused there. *)
Definition int_max_str_digits : nat := 4300.

(** Integers exactly representable in a float. *)
Definition float_exact (z : Z) : bool := (Z.abs z <=? 2 ^ 53)%Z.

(** [float(z)] for [0 <= z <= 2^53]. *)
Definition float_of_nonneg (z : Z) : float := PrimFloat.of_uint63 (Uint63.of_Z z).

(** [float(z)] for [|z| <= 2^53]. *)
Definition float_of_Z (z : Z) : float :=
  if (z <? 0)%Z then PrimFloat.opp (float_of_nonneg (- z)) else float_of_nonneg z.

(** A decimal integer literal: zeros only, or no leading zero. *)
Definition int_literal (ds : string) : option value :=
  if Nat.ltb int_max_str_digits (String.length ds) then None
  else
    match ds with
    | String "0" (String _ _) =>
        if (digits_value ds =? 0)%Z then Some (VInt 0) else None
    | _ => Some (VInt (digits_value ds))
    end.

(** A float literal [ip.fp] without exponent: the quotient of two exactly
    representable integers is the correctly rounded value of the decimal. *)
Definition float_literal (ip fp : string) : option value :=
  match ip ++ fp with
  | EmptyString => None
  | ds =>
      if float_exact (digits_value ds) && Nat.leb (String.length fp) 15
      then Some (VFloat (PrimFloat.div (float_of_nonneg (digits_value ds))
                                       (float_of_nonneg (10 ^ Z.of_nat (String.length fp)))))
      else None
  end.

(* ----------------------------------------------------------------- *)
(** *** Tokens *)

Inductive token : Type :=
| TNum (v : value)
| TName (x : string)
| TPlus | TMinus | TStar | TSlash
| TLParen | TRParen
| TAssign | TSemi.

(** The keywords of the language: none of them is a name. *)
Definition keywords : list string :=
  ["False"; "None"; "True"; "and"; "as"; "assert"; "async"; "await"; "break";
   "class"; "continue"; "def"; "del"; "elif"; "else"; "except"; "finally";
   "for"; "from"; "global"; "if"; "import"; "in"; "is"; "lambda"; "nonlocal";
   "not"; "or"; "pass"; "raise"; "return"; "try"; "while"; "with"; "yield"].

Definition is_keyword (x : string) : bool := existsb (String.eqb x) keywords.

(** What the tokenizer is in the middle of. *)
Inductive pending : Type :=
| Idle
| Digits (ip : string)
| Fraction (ip fp : string)
| Ident (x : string).

Definition snoc (s : string) (c : ascii) : string := s ++ String c EmptyString.

(** The token a pending literal or name ends as; [None] outside the fragment. *)
Definition flush (p : pending) : option (list token) :=
  match p with
  | Idle => Some []
  | Digits ip => option_map (fun v => [TNum v]) (int_literal ip)
  | Fraction ip fp => option_map (fun v => [TNum v]) (float_literal ip fp)
  | Ident x => if is_keyword x then None else Some [TName x]
  end.

Definition emit (p : pending) (ts : list token) (rest : option (list token))
  : option (list token) :=
  match flush p, rest with
  | Some t0, Some t1 => Some (t0 ++ ts ++ t1)%list
  | _, _ => None
  end.

(** The operators and delimiters of the fragment, and the blanks between
    tokens (space and tab), from the character [c] and what follows it.
    [**], [//] and [==] are tokens of the language that the fragment leaves
    out. *)
Definition operator (c : ascii) (s' : string) : option (list token) :=
  match c with
  | " "%char | "009"%char => Some []
  | "+"%char => Some [TPlus]
  | "-"%char => Some [TMinus]
  | "("%char => Some [TLParen]
  | ")"%char => Some [TRParen]
  | ";"%char => Some [TSemi]
  | "*"%char => if Str.startswith "*" s' then None else Some [TStar]
  | "/"%char => if Str.startswith "/" s' then None else Some [TSlash]
  | "="%char => if Str.startswith "=" s' then None else Some [TAssign]
  | _ => None
  end.

(** The tokenizer on the alphabet of the fragment: digits, ASCII letters,
    underscore, the decimal point, the operators above.  Whatever a letter
    directly after a number starts (exponents, [0x], [j], ...) is left out. *)
Fixpoint lex_from (p : pending) (s : string) : option (list token) :=
  match s with
  | EmptyString => flush p
  | String c s' =>
      if is_digit c then
        match p with
        | Idle => lex_from (Digits (String c EmptyString)) s'
        | Digits ip => lex_from (Digits (snoc ip c)) s'
        | Fraction ip fp => lex_from (Fraction ip (snoc fp c)) s'
        | Ident x => lex_from (Ident (snoc x c)) s'
        end
      else if is_name_start c then
        match p with
        | Idle => lex_from (Ident (String c EmptyString)) s'
        | Ident x => lex_from (Ident (snoc x c)) s'
        | Digits _ | Fraction _ _ => None
        end
      else if Ascii.eqb c "." then
        match p with
        | Digits ip => lex_from (Fraction ip EmptyString) s'
        | _ => emit p [] (lex_from (Fraction EmptyString EmptyString) s')
        end
      else
        match operator c s' with
        | Some ts => emit p ts (lex_from Idle s')
        | None => None
        end
  end.

Definition lex (source : string) : option (list token) := lex_from Idle source.

(* ----------------------------------------------------------------- *)
(** *** Expressions *)

Inductive binop : Type := Add | Sub | Mul | Div.

Inductive expr : Type :=
| ENum (v : value)
| EName (x : string)
| ECall (f : string)
| EPos (e : expr)
| ENeg (e : expr)
| EBin (op : binop) (l r : expr).

(** The verdict of a parser: a tree, a syntax error, or outside the fragment. *)
Inductive parsed (A : Type) : Type :=
| Parsed (a : A)
| Invalid
| Unknown.
Arguments Parsed {A} a.
Arguments Invalid {A}.
Arguments Unknown {A}.

(** A parenthesis directly after a primary is a call: the one call of the
    fragment, a name applied to no argument, is recognised before. *)
Definition no_call (e : expr) (rest : list token) : parsed (expr * list token) :=
  match rest with
  | TLParen :: _ => Unknown
  | _ => Parsed (e, rest)
  end.

(** Recursive descent on
    [sum: sum + term | sum - term | term],
    [term: term * factor | term / factor | factor],
    [factor: + factor | - factor | primary],
    [primary: NUMBER | NAME | NAME ( ) | ( sum )],
    reading tokens left to right; [n] bounds the depth of the descent. *)
Fixpoint parse_sum (n : nat) (ts : list token) : parsed (expr * list token) :=
  match n with
  | O => Unknown
  | S n =>
      match parse_term n ts with
      | Parsed (e, rest) => parse_sum_rest n e rest
      | Invalid => Invalid
      | Unknown => Unknown
      end
  end
with parse_sum_rest (n : nat) (acc : expr) (ts : list token) : parsed (expr * list token) :=
  match n with
  | O => Unknown
  | S n =>
      match ts with
      | TPlus :: ts' =>
          match parse_term n ts' with
          | Parsed (e, rest) => parse_sum_rest n (EBin Add acc e) rest
          | Invalid => Invalid
          | Unknown => Unknown
          end
      | TMinus :: ts' =>
          match parse_term n ts' with
          | Parsed (e, rest) => parse_sum_rest n (EBin Sub acc e) rest
          | Invalid => Invalid
          | Unknown => Unknown
          end
      | _ => Parsed (acc, ts)
      end
  end
with parse_term (n : nat) (ts : list token) : parsed (expr * list token) :=
  match n with
  | O => Unknown
  | S n =>
      match parse_factor n ts with
      | Parsed (e, rest) => parse_term_rest n e rest
      | Invalid => Invalid
      | Unknown => Unknown
      end
  end
with parse_term_rest (n : nat) (acc : expr) (ts : list token) : parsed (expr * list token) :=
  match n with
  | O => Unknown
  | S n =>
      match ts with
      | TStar :: ts' =>
          match parse_factor n ts' with
          | Parsed (e, rest) => parse_term_rest n (EBin Mul acc e) rest
          | Invalid => Invalid
          | Unknown => Unknown
          end
      | TSlash :: ts' =>
          match parse_factor n ts' with
          | Parsed (e, rest) => parse_term_rest n (EBin Div acc e) rest
          | Invalid => Invalid
          | Unknown => Unknown
          end
      | _ => Parsed (acc, ts)
      end
  end
with parse_factor (n : nat) (ts : list token) : parsed (expr * list token) :=
  match n with
  | O => Unknown
  | S n =>
      match ts with
      | TPlus :: ts' =>
          match parse_factor n ts' with
          | Parsed (e, rest) => Parsed (EPos e, rest)
          | Invalid => Invalid
          | Unknown => Unknown
          end
      | TMinus :: ts' =>
          match parse_factor n ts' with
          | Parsed (e, rest) => Parsed (ENeg e, rest)
          | Invalid => Invalid
          | Unknown => Unknown
          end
      | TNum v :: rest => no_call (ENum v) rest
      | TName f :: TLParen :: TRParen :: rest => no_call (ECall f) rest
      | TName x :: rest => no_call (EName x) rest
      | TLParen :: TRParen :: _ => Unknown
      | TLParen :: ts' =>
          match parse_sum n ts' with
          | Parsed (e, TRParen :: rest) => no_call e rest
          | Parsed (_, _) => Invalid
          | Invalid => Invalid
          | Unknown => Unknown
          end
      | _ => Invalid
      end
  end.

(** [(] raises the nesting depth, [)] lowers it; an [=] at depth 0 is an
    assignment, which no expression contains. *)
Fixpoint top_level_assign (depth : nat) (ts : list token) : bool :=
  match ts with
  | [] => false
  | TLParen :: ts' => top_level_assign (S depth) ts'
  | TRParen :: ts' => top_level_assign (Nat.pred depth) ts'
  | TAssign :: ts' => Nat.eqb depth 0 || top_level_assign depth ts'
  | _ :: ts' => top_level_assign depth ts'
  end.

Definition is_semi (t : token) : bool :=
  match t with TSemi => true | _ => false end.

Definition is_assign (t : token) : bool :=
  match t with TAssign => true | _ => false end.

(** Sources of more tokens than this are left out: the interpreter's own
    limits (nesting depth, recursion) are far above. *)
Definition max_tokens : nat := 64.

(** The parse of a token list as the whole input of [eval]. *)
Definition parse (ts : list token) : parsed expr :=
  if Nat.ltb max_tokens (List.length ts) then Unknown
  else if existsb is_semi ts then Invalid
  else if top_level_assign 0 ts then Invalid
  else if existsb is_assign ts then Unknown
  else
    match parse_sum (4 * List.length ts + 4) ts with
    | Parsed (e, []) => Parsed e
    | Parsed (_, _ :: _) => Invalid
    | Invalid => Invalid
    | Unknown => Unknown
    end.

(** [compile(source, "<string>", "eval")] *)
Definition compile (source : string) : parsed expr :=
  match lex source with
  | Some ts => parse ts
  | None => Unknown
  end.

(* ----------------------------------------------------------------- *)
(** *** Evaluation *)

(** The names an expression evaluated inside [simple_calculator] sees: the
    function's one local, [expression], and the module's globals that hold
    strings; [OFFLINE_MODEL_NAME] is assigned once, [selected_prompt] and
    [user_input] come from the widgets on every run of the script. *)
Record namespace : Type := {
  expression : string;
  OFFLINE_MODEL_NAME : string;
  selected_prompt : string;
  user_input : string
}.

(** Locals first, then globals; every other name (functions, modules, the
    builtins) is outside the fragment. *)
Definition lookup (ns : namespace) (x : string) : outcome value :=
  if String.eqb x "expression" then Returns (VStr (expression ns))
  else if String.eqb x "OFFLINE_MODEL_NAME" then Returns (VStr (OFFLINE_MODEL_NAME ns))
  else if String.eqb x "selected_prompt" then Returns (VStr (selected_prompt ns))
  else if String.eqb x "user_input" then Returns (VStr (user_input ns))
  else Unmodelled.

(** [exit] and [quit], the builtins the [site] module adds: called, they raise
    [SystemExit]. *)
Definition call (f : string) : outcome value :=
  if String.eqb f "exit" || String.eqb f "quit" then Raises SystemExit
  else Unmodelled.

Definition float_binop (op : binop) (a b : float) : outcome value :=
  match op with
  | Add => Returns (VFloat (PrimFloat.add a b))
  | Sub => Returns (VFloat (PrimFloat.sub a b))
  | Mul => Returns (VFloat (PrimFloat.mul a b))
  | Div =>
      if PrimFloat.is_zero b then Raises (ZeroDivisionError true)
      else Returns (VFloat (PrimFloat.div a b))
  end.

(** Binary operators on numbers: integers are exact, [/] is true division
    and gives a float, an integer next to a float is converted first. *)
Definition binary (op : binop) (a b : value) : outcome value :=
  match a, b with
  | VInt x, VInt y =>
      match op with
      | Add => Returns (VInt (x + y))
      | Sub => Returns (VInt (x - y))
      | Mul => Returns (VInt (x * y))
      | Div =>
          if (y =? 0)%Z then Raises (ZeroDivisionError false)
          else if float_exact x && float_exact y
          then Returns (VFloat (PrimFloat.div (float_of_Z x) (float_of_Z y)))
          else Unmodelled
      end
  | VInt x, VFloat g =>
      if float_exact x then float_binop op (float_of_Z x) g else Unmodelled
  | VFloat f, VInt y =>
      if float_exact y then float_binop op f (float_of_Z y) else Unmodelled
  | VFloat f, VFloat g => float_binop op f g
  | _, _ => Unmodelled
  end.

Definition unary_minus (a : value) : outcome value :=
  match a with
  | VInt x => Returns (VInt (- x))
  | VFloat f => Returns (VFloat (PrimFloat.opp f))
  | VStr _ => Unmodelled
  end.

Definition unary_plus (a : value) : outcome value :=
  match a with
  | VInt _ | VFloat _ => Returns a
  | VStr _ => Unmodelled
  end.

(** Operands are evaluated left to right; the first exception ends the
    evaluation. *)
Fixpoint eval_expr (ns : namespace) (e : expr) : outcome value :=
  match e with
  | ENum v => Returns v
  | EName x => lookup ns x
  | ECall f => call f
  | EPos e1 =>
      match eval_expr ns e1 with
      | Returns a => unary_plus a
      | other => other
      end
  | ENeg e1 =>
      match eval_expr ns e1 with
      | Returns a => unary_minus a
      | other => other
      end
  | EBin op l r =>
      match eval_expr ns l with
      | Returns a =>
          match eval_expr ns r with
          | Returns b => binary op a b
          | other => other
          end
      | other => other
      end
  end.

(** [eval(source)] called with the namespace [ns] in scope. *)
Definition eval (ns : namespace) (source : string) : outcome value :=
  match compile source with
  | Parsed e => eval_expr ns e
  | Invalid => Raises (SyntaxError source)
  | Unknown => Unmodelled
  end.

(* ----------------------------------------------------------------- *)
(** *** Formatting *)

(** [str(z)] *)
Definition int_str (z : Z) : string := NilZero.string_of_int (Z.to_int z).

(** The integer [m * 2^e], when it is one. *)
Definition integer_of (m : positive) (e : Z) : option Z :=
  if (0 <=? e)%Z then Some (Zpos m * 2 ^ e)%Z
  else if (Zpos m mod 2 ^ (- e) =? 0)%Z then Some (Zpos m / 2 ^ (- e))%Z
  else None.

(** [repr(f)] of a float that holds an integer of at most 2^53: its digits
    and [.0].  Other floats need the shortest round-tripping digit string,
    which is outside the fragment. *)
Definition float_str (f : float) : option string :=
  match Prim2SF f with
  | S754_zero s => Some (if s then "-0.0" else "0.0")
  | S754_finite s m e =>
      match integer_of m e with
      | Some n =>
          if (n <=? 2 ^ 53)%Z
          then Some ((if s then "-" else "") ++ int_str n ++ ".0")
          else None
      | None => None
      end
  | S754_infinity _ | S754_nan => None
  end.

(** [format(v, "")], what an f-string inserts for [{v}]. *)
Definition format (v : value) : option string :=
  match v with
  | VInt z =>
      if (Z.abs z <? 10 ^ Z.of_nat int_max_str_digits)%Z then Some (int_str z) else None
  | VFloat f => float_str f
  | VStr s => Some s
  end.

End Py.

(* ================================================================= *)
(** ** The calculator tool *)

Definition OFFLINE_MODEL_NAME : string := "distilgpt2".

(** The module globals that change from one run of the script to the next:
    the value of the select box and of the text input. *)
Record module_state : Type := {
  selected_prompt : string;
  user_input : string
}.

(** The namespace [eval] runs in when [simple_calculator] calls it. *)
Definition calculator_namespace (g : module_state) (expression : string) : Py.namespace :=
  {| Py.expression := expression;
     Py.OFFLINE_MODEL_NAME := OFFLINE_MODEL_NAME;
     Py.selected_prompt := selected_prompt g;
     Py.user_input := user_input g |}.

(** [simple_calculator]: the [try] returns the success text, [except Exception]
    turns what it catches into the error text, anything else propagates. *)
Definition simple_calculator (M : Py.messages) (g : module_state) (expression : string)
  : Py.outcome string :=
  match Py.eval (calculator_namespace g expression) expression with
  | Py.Returns result =>
      match Py.format result with
      | Some text => Py.Returns ("The result of '" ++ expression ++ "' is: " ++ text)
      | None => Py.Unmodelled
      end
  | Py.Raises e =>
      if Py.derives_from_Exception e
      then Py.Returns ("Error evaluating expression '" ++ expression ++ "': " ++ Py.exn_str M e)
      else Py.Raises e
  | Py.Unmodelled => Py.Unmodelled
  end.

(* ================================================================= *)
(** ** The two paths and the text generator *)

(** The keyword arguments of a call of [llm_generator]. *)
Record SamplingConfig : Type := {
  max_new_tokens : Z;
  num_return_sequences : Z;
  do_sample : bool;
  top_k : Z;
  top_p : float
}.

(** The arguments [run_agent] passes; [top_p] is the float of [0.95]. *)
Definition agent_config : SamplingConfig :=
  {| max_new_tokens := 50; num_return_sequences := 1; do_sample := true;
     top_k := 50; top_p := 0x1.e666666666666p-1%float |}.

(** The arguments [run_non_agentic_llm] passes. *)
Definition non_agentic_config : SamplingConfig :=
  {| max_new_tokens := 100; num_return_sequences := 1; do_sample := true;
     top_k := 50; top_p := 0x1.e666666666666p-1%float |}.

(** What a call of the generator comes back with: the [generated_text] of
    each returned sequence, or an exception. *)
Inductive reply : Type :=
| Sequences (generated_text : list string)
| Failure (e : Py.exn).

(** A computation that may call the generator: the call is a node of the
    tree, what follows it a function of the reply. *)
Inductive prog (A : Type) : Type :=
| Done (r : Py.outcome A)
| Generate (prompt : string) (config : SamplingConfig) (k : reply -> prog A).
Arguments Done {A} r.
Arguments Generate {A} prompt config k.

Fixpoint bind {A B : Type} (p : prog A) (f : A -> prog B) : prog B :=
  match p with
  | Done (Py.Returns a) => f a
  | Done (Py.Raises e) => Done (Py.Raises e)
  | Done Py.Unmodelled => Done Py.Unmodelled
  | Generate prompt config k => Generate prompt config (fun r => bind (k r) f)
  end.

Definition ret {A : Type} (a : A) : prog A := Done (Py.Returns a).

(** [response_data[0]['generated_text']] *)
Definition first_generated_text (response_data : reply) : Py.outcome string :=
  match response_data with
  | Sequences (text :: _) => Py.Returns text
  | Sequences [] => Py.Raises Py.IndexError
  | Failure e => Py.Raises e
  end.

(** The two locals a path ends with: [processing_info] and [response]. *)
Record ExecutionResult : Type := {
  trace : list string;
  response : string
}.

(** The [return] of both paths: ["\n".join(processing_info) + "\n\n" + response]. *)
Definition render (r : ExecutionResult) : string :=
  Str.join (String "010" "") (trace r) ++ String "010" (String "010" "") ++ response r.

(** [run_agent], up to its [return]. *)
Definition run_agent_result (M : Py.messages) (g : module_state) (query : string)
  : prog ExecutionResult :=
  let processing_info : list string := [] in
  if is_calculation_request query then
    let processing_info :=
      (processing_info
         ++ ["Agent detected a calculation request. Attempting to use calculator tool..."])%list in
    let expression := extract query in
    bind (Done (simple_calculator M g expression)) (fun response =>
    ret {| trace := processing_info; response := response |})
  else
    let processing_info :=
      (processing_info ++ ["Agent generating response using LLM..."])%list in
    Generate query agent_config (fun response_data =>
    bind (Done (first_generated_text response_data)) (fun response =>
    ret {| trace := processing_info; response := response |})).

Definition run_agent (M : Py.messages) (g : module_state) (query : string) : prog string :=
  bind (run_agent_result M g query) (fun r => ret (render r)).

(** [run_non_agentic_llm], up to its [return]. *)
Definition run_non_agentic_llm_result (query : string) : prog ExecutionResult :=
  let processing_info : list string :=
    ([] ++ ["Directly generating response using LLM (no tools).."])%list in
  Generate query non_agentic_config (fun response_data =>
  bind (Done (first_generated_text response_data)) (fun response =>
  ret {| trace := processing_info; response := response |})).

Definition run_non_agentic_llm (query : string) : prog string :=
  bind (run_non_agentic_llm_result query) (fun r => ret (render r)).

(** Python's truth value of a string. *)
Definition truthy (s : string) : bool :=
  match s with EmptyString => false | String _ _ => true end.

(** The body of [if st.button("Run Both AIs")], with both paths' results
    before they are rendered: nothing is run for an empty input. *)
Definition run_both_results (M : Py.messages) (g : module_state)
  : prog (option (ExecutionResult * ExecutionResult)) :=
  if truthy (user_input g) then
    bind (run_non_agentic_llm_result (user_input g)) (fun direct =>
    bind (run_agent_result M g (user_input g)) (fun routed =>
    ret (Some (direct, routed))))
  else ret None.

(** The same with the two strings the page shows. *)
Definition run_both (M : Py.messages) (g : module_state) : prog (option (string * string)) :=
  if truthy (user_input g) then
    bind (run_non_agentic_llm (user_input g)) (fun non_agentic_response =>
    bind (run_agent M g (user_input g)) (fun agentic_response =>
    ret (Some (non_agentic_response, agentic_response))))
  else ret None.

(** One call of the generator: its prompt and its keyword arguments. *)
Definition generator_call : Type := (string * SamplingConfig)%type.

Section Exec.

(** The generator as the environment provides it: it may keep a state (the
    sampler's) and answers every call with a reply. *)
Context {S : Type} (llm_generator : string -> SamplingConfig -> S -> reply * S).

(** Runs a computation against the generator; returns how it ends, the
    calls it made in order, and the generator's final state. *)
Fixpoint exec {A : Type} (p : prog A) (s : S) : Py.outcome A * list generator_call * S :=
  match p with
  | Done r => (r, [], s)
  | Generate prompt config k =>
      let '(r, s1) := llm_generator prompt config s in
      let '(o, calls, s2) := exec (k r) s1 in
      (o, (prompt, config) :: calls, s2)
  end.

End Exec.

(** Whether a computation calls the generator at all. *)
Definition calls_generator {A : Type} (p : prog A) : bool :=
  match p with
  | Done _ => false
  | Generate _ _ _ => true
  end.

(* ================================================================= *)
(** ** The specification's wording, for comparison with the code *)

(** The characters of a string. *)
Definition chars (s : string) : list ascii := list_ascii_of_string s.

(** [p] occurs in [s]. *)
Definition Substring (p s : string) : Prop := exists a b, s = a ++ p ++ b.

(** [t] is [s] with some characters left out. *)
Inductive Subseq : string -> string -> Prop :=
| Subseq_nil : Subseq EmptyString EmptyString
| Subseq_keep c t s : Subseq t s -> Subseq (String c t) (String c s)
| Subseq_drop c t s : Subseq t s -> Subseq t (String c s).

(** The routing rule as the specification words it: the lower-cased query
    contains "calculate", or contains "what is" and one of [+ - * /]. *)
Definition routes_to_tool (query : string) : Prop :=
  Substring "calculate" (Str.lower query)
  \/ (Substring "what is" (Str.lower query)
      /\ exists c, In c ["+"; "-"; "*"; "/"]%char /\ In c (chars (Str.lower query))).




(** The character set of the specification's restricted grammar: digits,
    [+ - * /], parentheses, the decimal point and the space. *)
Definition in_restricted_alphabet (expression : string) : bool :=
  forallb
    (fun c => Py.is_digit c
              || existsb (Ascii.eqb c) ["+"; "-"; "*"; "/"; "("; ")"; "."; " "]%char)
    (chars expression).

(** The calculator's two kinds of failure in the specification's taxonomy. *)
Definition calculator_failure (e : Py.exn) : bool :=
  match e with
  | Py.SyntaxError _ | Py.ZeroDivisionError _ => true
  | _ => false
  end.

(** An expression without identifiers. *)
Definition name_free (expression : string) : bool :=
  forallb (fun c => negb (Py.is_name_start c)) (chars expression).

(** Texts to run examples with: CPython's plain SyntaxError text, and the
    float division text of CPython 3.13 and earlier. *)
Definition cpython_messages : Py.messages :=
  {| Py.syntax_error_text := fun _ => "invalid syntax (<string>, line 1)";
     Py.float_zero_division_text := "float division by zero" |}.

(** A generator that answers every call with one sequence. *)
Definition echo_generator (prompt : string) (config : SamplingConfig) (s : unit)
  : reply * unit :=
  (Sequences [prompt ++ " ..."], s).

(** A string that does not start with whitespace. *)
Definition starts_clean (s : string) : bool :=
  match s with
  | EmptyString => true
  | String c _ => negb (Str.isspace c)
  end.

(** A token that is not a name. *)
Definition nameless_token (t : Py.token) : bool :=
  match t with Py.TName _ => false | _ => true end.

(** An expression tree that mentions no name. *)
Fixpoint nameless (e : Py.expr) : bool :=
  match e with
  | Py.ENum _ => true
  | Py.EName _ | Py.ECall _ => false
  | Py.EPos e1 | Py.ENeg e1 => nameless e1
  | Py.EBin _ l r => nameless l && nameless r
  end.

(** A tokenizer state that is not inside a name. *)
Definition outside_name (p : Py.pending) : bool :=
  match p with Py.Ident _ => false | _ => true end.

(** Two states of the page: the same text typed into the input, two
    different choices in the select box. *)
Definition page_first : module_state :=
  {| selected_prompt := "What is 15 * 3?";
     user_input := "calculate selected_prompt" |}.

Definition page_second : module_state :=
  {| selected_prompt := "What is 1000 - 123?";
     user_input := "calculate selected_prompt" |}.

(** The page after "calculate exit()" was typed into the input. *)
Definition page_exit : module_state :=
  {| selected_prompt := "Select a prompt from here...";
     user_input := "calculate exit()" |}.

(** What a path returns once its response is known, or how it ends
    otherwise. *)
Definition finish (processing_info : list string) (o : Py.outcome string)
  : Py.outcome string :=
  match o with
  | Py.Returns response =>
      Py.Returns (render {| trace := processing_info; response := response |})
  | Py.Raises e => Py.Raises e
  | Py.Unmodelled => Py.Unmodelled
  end.

(** The statement of the parser lemma at one depth, for the five mutually
    recursive functions. *)
Definition parses_nameless (n : nat) : Prop :=
  (forall ts e rest,
      forallb nameless_token ts = true ->
      Py.parse_sum n ts = Py.Parsed (e, rest) ->
      nameless e = true /\ forallb nameless_token rest = true)
  /\ (forall acc ts e rest,
        nameless acc = true -> forallb nameless_token ts = true ->
        Py.parse_sum_rest n acc ts = Py.Parsed (e, rest) ->
        nameless e = true /\ forallb nameless_token rest = true)
  /\ (forall ts e rest,
        forallb nameless_token ts = true ->
        Py.parse_term n ts = Py.Parsed (e, rest) ->
        nameless e = true /\ forallb nameless_token rest = true)
  /\ (forall acc ts e rest,
        nameless acc = true -> forallb nameless_token ts = true ->
        Py.parse_term_rest n acc ts = Py.Parsed (e, rest) ->
        nameless e = true /\ forallb nameless_token rest = true)
  /\ (forall ts e rest,
        forallb nameless_token ts = true ->
        Py.parse_factor n ts = Py.Parsed (e, rest) ->
        nameless e = true /\ forallb nameless_token rest = true).

(* ================================================================= *)
(** ** The page around the two paths *)

(** [example_prompts]: the choices of the select box; the first is the
    placeholder, the comments of the source mark the second, fourth and
    sixth as math queries. *)
Definition example_prompts : list string :=
  ["Select a prompt from here...";
   "What is 15 * 3?";
   "Tell me a short story about a brave knight.";
   "Calculate (20 + 5) / 5.";
   "Explain the concept of artificial intelligence.";
   "What is 1000 - 123?"].

(** The [value] argument of the text input: empty while the placeholder is
    selected, the selected prompt otherwise. *)
Definition text_input_value (selected_prompt : string) : string :=
  if String.eqb selected_prompt "Select a prompt from here..."
  then EmptyString
  else selected_prompt.

(** The page when the input holds the value the select box proposes. *)
Definition page_selecting (selected_prompt : string) : module_state :=
  {| selected_prompt := selected_prompt;
     user_input := text_input_value selected_prompt |}.


(** The characters an arithmetic expression is written with: digits, the
    four operators, parentheses and the decimal point. *)
Definition arithmetic_char (c : ascii) : bool :=
  Py.is_digit c || existsb (Ascii.eqb c) ["+"; "-"; "*"; "/"; "("; ")"; "."]%char.

(** The arithmetic characters of a string, in their order. *)
Definition skeleton (s : string) : list ascii := filter arithmetic_char (chars s).

(** A string of arithmetic characters and spaces. *)
Definition expression_text (e : string) : bool :=
  forallb (fun c => arithmetic_char c || Ascii.eqb c " ") (chars e).

(** [a] is a decimal integer literal of the evaluator, of value [x]. *)
Definition integer_literal (a : string) (x : Z) : Prop :=
  forallb Py.is_digit (chars a) = true
  /\ a <> EmptyString
  /\ Py.int_literal a = Some (Py.VInt x).

(** A generator whose every call fails. *)
Definition failing_generator (prompt : string) (config : SamplingConfig) (s : unit)
  : reply * unit :=
  (Failure (Py.Other true "model unavailable"), s).

(* ================================================================= *)
(** ** Strings: the methods against their meaning *)

Lemma startswith_app : forall p s, Str.startswith p (p ++ s) = true.
Proof.
  induction p as [|a p IH]; intros s; simpl; [reflexivity|].
  now rewrite Ascii.eqb_refl, IH.
Qed.

Lemma startswith_prefix : forall p s,
  Str.startswith p s = true -> exists b, s = p ++ b.
Proof.
  induction p as [|a p IH]; intros s H.
  - now exists s.
  - destruct s as [|c s]; simpl in H; [discriminate|].
    apply andb_true_iff in H as [Hc Hp].
    apply Ascii.eqb_eq in Hc; subst c.
    destruct (IH _ Hp) as [b ->]. now exists b.
Qed.

Lemma startswith_contains : forall p s,
  Str.startswith p s = true -> Str.contains p s = true.
Proof. intros p [|c s] H; simpl in *; rewrite H; reflexivity. Qed.

Lemma contains_Substring : forall p s,
  Str.contains p s = true <-> Substring p s.
Proof.
  intros p s; split.
  - induction s as [|c s IH]; simpl; intros H.
    + rewrite orb_false_r in H. apply startswith_prefix in H as [b Hb].
      exists EmptyString, b. exact Hb.
    + apply orb_true_iff in H as [H|H].
      * apply startswith_prefix in H as [b Hb]. exists EmptyString, b. exact Hb.
      * destruct (IH H) as (a & b & ->). exists (String c a), b. reflexivity.
  - intros (a & b & ->). induction a as [|c a IH].
    + change (Str.contains p (p ++ b) = true).
      apply startswith_contains, startswith_app.
    + change (Str.contains p (String c (a ++ p ++ b)) = true).
      simpl. rewrite IH. apply orb_true_r.
Qed.

Lemma contains_char : forall c s,
  Str.contains (String c EmptyString) s = true <-> In c (chars s).
Proof.
  intros c s; induction s as [|d s IH]; simpl.
  - split; [discriminate|contradiction].
  - rewrite orb_true_iff, IH, andb_true_r, Ascii.eqb_eq.
    split; intros [H|H]; auto.
Qed.



(** Lower-casing neither makes nor removes an operator character. *)
Lemma lower_char_operator : forall c d,
  In c ["+"; "-"; "*"; "/"]%char -> (Str.lower_char d = c <-> d = c).
Proof.
  intros c d Hc. simpl in Hc.
  destruct Hc as [<-|[<-|[<-|[<-|[]]]]];
    destruct d as [[] [] [] [] [] [] [] []]; split; intros H;
    solve [reflexivity | discriminate H].
Qed.

Lemma lower_operator_chars : forall c s,
  In c ["+"; "-"; "*"; "/"]%char -> (In c (chars (Str.lower s)) <-> In c (chars s)).
Proof.
  intros c s Hc; induction s as [|d s IH]; simpl; [tauto|].
  rewrite IH, (lower_char_operator c d Hc). tauto.
Qed.

(* ================================================================= *)
(** ** The router *)

Lemma any_in_operators : forall s,
  Str.any_in operators s = true
  <-> exists c, In c ["+"; "-"; "*"; "/"]%char /\ In c (chars s).
Proof.
  intros s. unfold Str.any_in, operators. cbn [existsb].
  rewrite !orb_true_iff, !contains_char. split.
  - intros [H|[H|[H|[H|H]]]]; try discriminate;
      eexists; (split; [|exact H]); simpl; auto.
  - intros (c & Hc & H). simpl in Hc.
    destruct Hc as [<-|[<-|[<-|[<-|[]]]]]; auto.
Qed.

(** The test of [run_agent] is the specification's rule. *)
Lemma is_calculation_request_spec : forall query,
  is_calculation_request query = true <-> routes_to_tool query.
Proof.
  intros query. unfold is_calculation_request, routes_to_tool.
  rewrite orb_true_iff, andb_true_iff, !contains_Substring, any_in_operators.
  split; (intros [H|[H (c & Hc & Hin)]]; [left; exact H|right; split; [exact H|]]);
    exists c; (split; [exact Hc|]); now apply (lower_operator_chars c query Hc).
Qed.



(* ================================================================= *)
(** ** The extractor *)

Lemma Subseq_refl : forall s, Subseq s s.
Proof. induction s; constructor; assumption. Qed.

Lemma Subseq_trans : forall s t u, Subseq s t -> Subseq t u -> Subseq s u.
Proof.
  intros s t u Hst Htu. revert s Hst.
  induction Htu as [|c t u Htu IH|c t u Htu IH]; intros s Hst.
  - exact Hst.
  - inversion Hst; subst.
    + apply Subseq_keep, IH. assumption.
    + apply Subseq_drop, IH. assumption.
  - apply Subseq_drop, IH, Hst.
Qed.

Lemma Subseq_chars : forall c t s, Subseq t s -> In c (chars t) -> In c (chars s).
Proof.
  intros c t s H. induction H; simpl; intros Hin; [assumption| |].
  - destruct Hin; [left|right]; auto.
  - right. auto.
Qed.



Lemma replace_scan_absent : forall old new s,
  Str.contains old s = false -> Str.replace_scan old new 0 s = s.
Proof.
  intros old new s. induction s as [|c s IH]; simpl; intros H; [reflexivity|].
  apply orb_false_iff in H as [H1 H2].
  simpl in H1. rewrite H1, (IH H2). reflexivity.
Qed.


Lemma lstrip_Subseq : forall s, Subseq (Str.lstrip s) s.
Proof.
  induction s as [|c s IH]; simpl; [constructor|].
  destruct (Str.isspace c); [apply Subseq_drop, IH|apply Subseq_refl].
Qed.

Lemma rstrip_Subseq : forall s, Subseq (Str.rstrip s) s.
Proof.
  induction s as [|c s IH]; simpl; [constructor|].
  destruct (Str.rstrip s) as [|d r].
  - destruct (Str.isspace c); [apply Subseq_drop|apply Subseq_keep]; exact IH.
  - apply Subseq_keep, IH.
Qed.

Lemma strip_Subseq : forall s, Subseq (Str.strip s) s.
Proof.
  intros s. unfold Str.strip.
  eapply Subseq_trans; [apply rstrip_Subseq|apply lstrip_Subseq].
Qed.



Lemma append_assoc : forall a b c : string, (a ++ b) ++ c = a ++ b ++ c.
Proof. induction a; intros; simpl; [reflexivity|now f_equal]. Qed.


Lemma lstrip_starts_clean : forall s, starts_clean (Str.lstrip s) = true.
Proof.
  induction s as [|c s IH]; simpl; [reflexivity|].
  destruct (Str.isspace c) eqn:E; [exact IH|]. simpl. now rewrite E.
Qed.

Lemma lstrip_fixed : forall s, starts_clean s = true -> Str.lstrip s = s.
Proof.
  intros [|c s]; simpl; [reflexivity|].
  intros H. apply negb_true_iff in H. now rewrite H.
Qed.

Lemma rstrip_starts_clean : forall s,
  starts_clean s = true -> starts_clean (Str.rstrip s) = true.
Proof.
  intros [|c s]; simpl; [reflexivity|]. intros H.
  destruct (Str.rstrip s); [|exact H].
  apply negb_true_iff in H. rewrite H. simpl. now rewrite H.
Qed.

Lemma rstrip_idempotent : forall s, Str.rstrip (Str.rstrip s) = Str.rstrip s.
Proof.
  induction s as [|c s IH]; simpl; [reflexivity|].
  destruct (Str.rstrip s) as [|d r] eqn:E.
  - destruct (Str.isspace c) eqn:Ec; simpl; [reflexivity|now rewrite Ec].
  - change (Str.rstrip (String c (String d r))) with
      (match Str.rstrip (String d r) with
       | EmptyString => if Str.isspace c then EmptyString else String c EmptyString
       | r' => String c r'
       end).
    rewrite IH. reflexivity.
Qed.

Lemma strip_idempotent : forall s, Str.strip (Str.strip s) = Str.strip s.
Proof.
  intros s. unfold Str.strip.
  rewrite (lstrip_fixed (Str.rstrip (Str.lstrip s))).
  - apply rstrip_idempotent.
  - apply rstrip_starts_clean, lstrip_starts_clean.
Qed.

Lemma extract_unfold : forall query,
  extract query =
  Str.strip (Str.replace_scan "the result of" EmptyString 0
    (Str.replace_scan "?" EmptyString 0
      (Str.strip (Str.replace_scan "what is" EmptyString 0
        (Str.replace_scan "calculate" EmptyString 0 (Str.lower query)))))).
Proof. reflexivity. Qed.



(* ================================================================= *)
(** ** The calculator on the worked examples *)

(** Splits a conjunction into its parts, and nothing else. *)
Ltac split_conj := repeat match goal with |- _ /\ _ => split end.

(** C5, on the code.  The extractor keeps the final period of
    "Calculate (20 + 5) / 5.": what it returns is not "(20 + 5) / 5". *)
Lemma extract_keeps_final_period :
  extract "Calculate (20 + 5) / 5." <> "(20 + 5) / 5".
Proof. vm_compute. discriminate. Qed.

(** C5, as amended.  extract("What is 15 * 3?") is "15 * 3", which evaluates
    to the integer 45; extract("Calculate (20 + 5) / 5.") is "(20 + 5) / 5.",
    final period kept, which evaluates (the period makes the divisor the float
    literal [5.]) to the float 5.0, as "(20 + 5) / 5" does. *)
Theorem worked_examples : forall M g,
  extract "What is 15 * 3?" = "15 * 3"
  /\ Py.eval (calculator_namespace g "15 * 3") "15 * 3" = Py.Returns (Py.VInt 45)
  /\ simple_calculator M g "15 * 3" = Py.Returns "The result of '15 * 3' is: 45"
  /\ extract "Calculate (20 + 5) / 5." = "(20 + 5) / 5."
  /\ Py.eval (calculator_namespace g "(20 + 5) / 5.") "(20 + 5) / 5."
     = Py.Returns (Py.VFloat 5)
  /\ simple_calculator M g "(20 + 5) / 5."
     = Py.Returns "The result of '(20 + 5) / 5.' is: 5.0"
  /\ Py.eval (calculator_namespace g "(20 + 5) / 5") "(20 + 5) / 5"
     = Py.Returns (Py.VFloat 5)
  /\ simple_calculator M g "(20 + 5) / 5"
     = Py.Returns "The result of '(20 + 5) / 5' is: 5.0"
  /\ run_agent M g "What is 15 * 3?"
     = Done (Py.Returns
         ("Agent detected a calculation request. Attempting to use calculator tool..."
          ++ String "010" (String "010" "") ++ "The result of '15 * 3' is: 45"))
  /\ run_agent M g "Calculate (20 + 5) / 5."
     = Done (Py.Returns
         ("Agent detected a calculation request. Attempting to use calculator tool..."
          ++ String "010" (String "010" "") ++ "The result of '(20 + 5) / 5.' is: 5.0")).
Proof. intros M g. split_conj; vm_compute; reflexivity. Qed.

(* ================================================================= *)
(** ** Failures of the calculator *)

(** What [except Exception] does with an exception it catches. *)
Lemma simple_calculator_caught : forall M g expression e,
  Py.eval (calculator_namespace g expression) expression = Py.Raises e ->
  Py.derives_from_Exception e = true ->
  simple_calculator M g expression
  = Py.Returns ("Error evaluating expression '" ++ expression ++ "': " ++ Py.exn_str M e).
Proof.
  intros M g expression e He Hd. unfold simple_calculator.
  rewrite He, Hd. reflexivity.
Qed.

Lemma calculator_failure_caught : forall e,
  calculator_failure e = true -> Py.derives_from_Exception e = true.
Proof. intros [] H; try reflexivity; discriminate H. Qed.

(** C4.  A failure of the calculator is content, not an exception: "5 / 0"
    raises ZeroDivisionError and "2 + " raises SyntaxError inside [eval], and
    [simple_calculator] returns the formatted error string in both cases; for
    every expression whose evaluation fails with one of the two, the string
    embeds the failure, and [run_agent], on a query routed to the tool, ends
    normally with that string after its trace line. *)
Theorem calculator_failure_is_content : forall M g,
  Py.eval (calculator_namespace g "5 / 0") "5 / 0" = Py.Raises (Py.ZeroDivisionError false)
  /\ simple_calculator M g "5 / 0"
     = Py.Returns "Error evaluating expression '5 / 0': division by zero"
  /\ Py.eval (calculator_namespace g "2 + ") "2 + " = Py.Raises (Py.SyntaxError "2 + ")
  /\ simple_calculator M g "2 + "
     = Py.Returns ("Error evaluating expression '2 + ': " ++ Py.syntax_error_text M "2 + ")
  /\ (forall expression e,
        Py.eval (calculator_namespace g expression) expression = Py.Raises e ->
        calculator_failure e = true ->
        simple_calculator M g expression
        = Py.Returns ("Error evaluating expression '" ++ expression ++ "': "
                      ++ Py.exn_str M e))
  /\ (forall query e,
        is_calculation_request query = true ->
        Py.eval (calculator_namespace g (extract query)) (extract query) = Py.Raises e ->
        calculator_failure e = true ->
        run_agent M g query
        = Done (Py.Returns
            (render {| trace := ["Agent detected a calculation request. Attempting to use calculator tool..."];
                       response := "Error evaluating expression '" ++ extract query ++ "': "
                                   ++ Py.exn_str M e |})))
  /\ run_agent M g "Calculate 5 / 0"
     = Done (Py.Returns
         ("Agent detected a calculation request. Attempting to use calculator tool..."
          ++ String "010" (String "010" "")
          ++ "Error evaluating expression '5 / 0': division by zero")).
Proof.
  intros M g. split_conj.
  - vm_compute; reflexivity.
  - vm_compute; reflexivity.
  - vm_compute; reflexivity.
  - vm_compute; reflexivity.
  - intros expression e He Hf.
    apply simple_calculator_caught; [exact He|now apply calculator_failure_caught].
  - intros query e Hq He Hf.
    unfold run_agent, run_agent_result. rewrite Hq.
    cbv beta zeta. unfold bind at 2.
    rewrite (simple_calculator_caught M g _ e He (calculator_failure_caught e Hf)).
    reflexivity.
  - vm_compute; reflexivity.
Qed.

(* ================================================================= *)
(** ** What escapes the calculator *)

Lemma binary_raises : forall op a b x,
  Py.binary op a b = Py.Raises x -> exists f, x = Py.ZeroDivisionError f.
Proof.
  intros op a b x H.
  destruct a as [p|f|s], b as [q|h|t]; simpl in H; try discriminate H.
  - destruct op; try discriminate H.
    destruct (q =? 0)%Z; [injection H as <-; now eexists|].
    destruct (Py.float_exact p && Py.float_exact q); discriminate H.
  - destruct (Py.float_exact p); [|discriminate H].
    destruct op; simpl in H; try discriminate H.
    destruct (PrimFloat.is_zero h); [injection H as <-; now eexists|discriminate H].
  - destruct (Py.float_exact q); [|discriminate H].
    destruct op; simpl in H; try discriminate H.
    destruct (PrimFloat.is_zero _); [injection H as <-; now eexists|discriminate H].
  - destruct op; simpl in H; try discriminate H.
    destruct (PrimFloat.is_zero h); [injection H as <-; now eexists|discriminate H].
Qed.

(** Evaluation in the fragment raises nothing but ZeroDivisionError and
    SystemExit. *)
Lemma eval_expr_raises : forall ns e x,
  Py.eval_expr ns e = Py.Raises x ->
  x = Py.SystemExit \/ exists f, x = Py.ZeroDivisionError f.
Proof.
  intros ns e x. induction e as [v|y|f|e IH|e IH|op l IHl r IHr]; simpl; intros H.
  - discriminate H.
  - unfold Py.lookup in H.
    repeat match type of H with
           | (if ?b then _ else _) = _ => destruct b; [discriminate H|]
           end.
    discriminate H.
  - unfold Py.call in H.
    destruct (_ || _); [injection H as <-; now left|discriminate H].
  - destruct (Py.eval_expr ns e) as [a|y|]; [|exact (IH H)|discriminate H].
    destruct a; discriminate H.
  - destruct (Py.eval_expr ns e) as [a|y|]; [|exact (IH H)|discriminate H].
    destruct a; discriminate H.
  - destruct (Py.eval_expr ns l) as [a|y|]; [|exact (IHl H)|discriminate H].
    destruct (Py.eval_expr ns r) as [b|y|]; [|exact (IHr H)|discriminate H].
    right. exact (binary_raises _ _ _ _ H).
Qed.

Lemma eval_raises : forall ns source x,
  Py.eval ns source = Py.Raises x ->
  x = Py.SystemExit \/ calculator_failure x = true.
Proof.
  intros ns source x. unfold Py.eval.
  destruct (Py.compile source) as [e| |]; intros H.
  - destruct (eval_expr_raises _ _ _ H) as [->|[f ->]]; [now left|now right].
  - injection H as <-. now right.
  - discriminate H.
Qed.

(** C10, on the code.  [except Exception] does not catch SystemExit: on
    "exit()" the calculator returns no string, the exception reaches its
    caller. *)
Lemma simple_calculator_exit_escapes :
  Py.eval (calculator_namespace page_exit "exit()") "exit()" = Py.Raises Py.SystemExit
  /\ Py.derives_from_Exception Py.SystemExit = false
  /\ simple_calculator cpython_messages page_exit "exit()" = Py.Raises Py.SystemExit.
Proof. split_conj; vm_compute; reflexivity. Qed.

(** C10, as amended.  On every input of the modelled fragment the calculator
    either returns a string, the success text around the formatted result or
    the error text around the message of an exception that derives from
    Exception, or lets the SystemExit of the evaluation through: the
    exceptions caught are those deriving from Exception, not every one. *)
Theorem simple_calculator_returns_or_exits : forall M g expression,
  simple_calculator M g expression <> Py.Unmodelled ->
  (exists text,
      simple_calculator M g expression
      = Py.Returns ("The result of '" ++ expression ++ "' is: " ++ text))
  \/ (exists e,
        Py.eval (calculator_namespace g expression) expression = Py.Raises e
        /\ Py.derives_from_Exception e = true
        /\ simple_calculator M g expression
           = Py.Returns ("Error evaluating expression '" ++ expression ++ "': "
                         ++ Py.exn_str M e))
  \/ (Py.eval (calculator_namespace g expression) expression = Py.Raises Py.SystemExit
      /\ simple_calculator M g expression = Py.Raises Py.SystemExit).
Proof.
  intros M g expression. unfold simple_calculator.
  destruct (Py.eval (calculator_namespace g expression) expression) as [v|x|] eqn:E.
  - destruct (Py.format v) as [text|]; intros H.
    + left. now exists text.
    + now contradiction H.
  - intros _. destruct (eval_raises _ _ _ E) as [->|Hf].
    + right; right. split; reflexivity.
    + right; left. exists x.
      rewrite (calculator_failure_caught x Hf). repeat split.
  - intros H. now contradiction H.
Qed.

Lemma simple_calculator_returns_or_exits_witness :
  simple_calculator cpython_messages page_first "(20 + 5) / 5." <> Py.Unmodelled
  /\ ((exists text,
          simple_calculator cpython_messages page_first "(20 + 5) / 5."
          = Py.Returns ("The result of '" ++ "(20 + 5) / 5." ++ "' is: " ++ text))
      \/ (exists e,
            Py.eval (calculator_namespace page_first "(20 + 5) / 5.") "(20 + 5) / 5."
            = Py.Raises e
            /\ Py.derives_from_Exception e = true
            /\ simple_calculator cpython_messages page_first "(20 + 5) / 5."
               = Py.Returns ("Error evaluating expression '" ++ "(20 + 5) / 5." ++ "': "
                             ++ Py.exn_str cpython_messages e))
      \/ (Py.eval (calculator_namespace page_first "(20 + 5) / 5.") "(20 + 5) / 5."
          = Py.Raises Py.SystemExit
          /\ simple_calculator cpython_messages page_first "(20 + 5) / 5."
             = Py.Raises Py.SystemExit)).
Proof.
  split.
  - vm_compute. discriminate.
  - apply (simple_calculator_returns_or_exits cpython_messages page_first "(20 + 5) / 5.").
    vm_compute. discriminate.
Defined.

(* ================================================================= *)
(** ** What the calculator accepts *)

(** C2, on the code.  An identifier is a token outside the restricted
    grammar, and the calculator evaluates it instead of rejecting it: inside
    [simple_calculator] the name [expression] is bound to the input itself. *)
Lemma simple_calculator_evaluates_identifier :
  in_restricted_alphabet "expression" = false
  /\ simple_calculator cpython_messages page_first "expression"
     = Py.Returns "The result of 'expression' is: expression".
Proof. split; vm_compute; reflexivity. Qed.

Lemma emit_inversion : forall p ts rest toks,
  Py.emit p ts rest = Some toks ->
  exists t0 t1, rest = Some t1 /\ toks = (t0 ++ ts ++ t1)%list.
Proof.
  intros p ts rest toks H. unfold Py.emit in H.
  destruct (Py.flush p) as [t0|]; [|discriminate H].
  destruct rest as [t1|]; [|discriminate H].
  injection H as <-. now exists t0, t1.
Qed.

Lemma operator_semicolon : forall s', Py.operator ";" s' = Some [Py.TSemi].
Proof. reflexivity. Qed.

(** A ";" in the source is a [TSemi] among its tokens. *)
Lemma lex_from_semicolon : forall s p toks,
  Py.lex_from p s = Some toks ->
  In ";"%char (chars s) ->
  In Py.TSemi toks.
Proof.
  induction s as [|c s IH]; intros p toks H Hin; [contradiction Hin|].
  destruct Hin as [Hc|Hin].
  - subst c. cbn [Py.lex_from] in H.
    change (Py.is_digit ";") with false in H.
    change (Py.is_name_start ";") with false in H.
    change (Ascii.eqb ";" ".") with false in H.
    cbv iota in H. rewrite operator_semicolon in H.
    destruct (emit_inversion _ _ _ _ H) as (t0 & t1 & _ & ->).
    apply in_or_app. right. now left.
  - cbn [Py.lex_from] in H.
    destruct (Py.is_digit c).
    { destruct p; exact (IH _ _ H Hin). }
    destruct (Py.is_name_start c).
    { destruct p; try discriminate H; exact (IH _ _ H Hin). }
    destruct (Ascii.eqb c ".").
    { destruct p; try exact (IH _ _ H Hin);
        destruct (emit_inversion _ _ _ _ H) as (t0 & t1 & Hr & ->);
        apply in_or_app; right; exact (IH _ _ Hr Hin). }
    destruct (Py.operator c s) as [ts|]; [|discriminate H].
    destruct (emit_inversion _ _ _ _ H) as (t0 & t1 & Hr & ->).
    apply in_or_app. right. apply in_or_app. right. exact (IH _ _ Hr Hin).
Qed.

Lemma parse_statement : forall ts,
  List.length ts <= Py.max_tokens ->
  In Py.TSemi ts \/ Py.top_level_assign 0 ts = true ->
  Py.parse ts = Py.Invalid.
Proof.
  intros ts Hlen H. unfold Py.parse.
  replace (Nat.ltb Py.max_tokens (List.length ts)) with false
    by (symmetry; apply Nat.ltb_ge; exact Hlen).
  destruct (existsb Py.is_semi ts) eqn:Es; [reflexivity|].
  destruct H as [H|H].
  - assert (Ht : existsb Py.is_semi ts = true)
      by (apply existsb_exists; exists Py.TSemi; split; [exact H|reflexivity]).
    rewrite Ht in Es. discriminate Es.
  - rewrite H. reflexivity.
Qed.

(** C2, as amended.  The calculator hands its input to the general
    evaluator and rejects what that one rejects: every input (over the
    characters of the fragment, at most 64 tokens long) that contains a
    statement separator [;] or an assignment [=] outside parentheses comes
    back as an error string with the SyntaxError text, and is not evaluated.
    Other tokens are not rejected as such: identifiers and calls are
    evaluated. *)
Theorem simple_calculator_rejects_statements : forall M g expression ts,
  Py.lex expression = Some ts ->
  List.length ts <= Py.max_tokens ->
  In ";"%char (chars expression) \/ Py.top_level_assign 0 ts = true ->
  Py.eval (calculator_namespace g expression) expression
  = Py.Raises (Py.SyntaxError expression)
  /\ simple_calculator M g expression
     = Py.Returns ("Error evaluating expression '" ++ expression ++ "': "
                   ++ Py.syntax_error_text M expression).
Proof.
  intros M g expression ts Hlex Hlen H.
  assert (H' : In Py.TSemi ts \/ Py.top_level_assign 0 ts = true).
  { destruct H as [H|H]; [left|now right].
    exact (lex_from_semicolon expression Py.Idle ts Hlex H). }
  assert (He : Py.eval (calculator_namespace g expression) expression
               = Py.Raises (Py.SyntaxError expression)).
  { unfold Py.eval, Py.compile. rewrite Hlex, (parse_statement ts Hlen H'). reflexivity. }
  split; [exact He|].
  apply (simple_calculator_caught M g expression _ He). reflexivity.
Qed.

Lemma simple_calculator_rejects_statements_witness :
  Py.lex "x = 1; x" =
    Some [Py.TName "x"; Py.TAssign; Py.TNum (Py.VInt 1); Py.TSemi; Py.TName "x"]
  /\ Py.eval (calculator_namespace page_first "x = 1; x") "x = 1; x"
     = Py.Raises (Py.SyntaxError "x = 1; x")
  /\ simple_calculator cpython_messages page_first "x = 1; x"
     = Py.Returns "Error evaluating expression 'x = 1; x': invalid syntax (<string>, line 1)".
Proof.
  split; [reflexivity|].
  apply (simple_calculator_rejects_statements cpython_messages page_first "x = 1; x"
           [Py.TName "x"; Py.TAssign; Py.TNum (Py.VInt 1); Py.TSemi; Py.TName "x"]).
  - reflexivity.
  - unfold Py.max_tokens. simpl. lia.
  - left. simpl. tauto.
Defined.

(* ================================================================= *)
(** ** What the calculator's result depends on *)

Lemma operator_nameless : forall c s' ts,
  Py.operator c s' = Some ts -> forallb nameless_token ts = true.
Proof.
  intros c s' ts H. unfold Py.operator in H.
  destruct c as [[] [] [] [] [] [] [] []]; try discriminate H;
    repeat match type of H with
           | (if ?b then _ else _) = _ => destruct b
           end;
    try discriminate H; injection H as <-; reflexivity.
Qed.

Lemma flush_nameless : forall p ts,
  outside_name p = true -> Py.flush p = Some ts -> forallb nameless_token ts = true.
Proof.
  intros [|ip|ip fp|x] ts Hp H; simpl in H; try discriminate Hp.
  - injection H as <-. reflexivity.
  - destruct (Py.int_literal ip); [|discriminate H]. injection H as <-. reflexivity.
  - destruct (Py.float_literal ip fp); [|discriminate H]. injection H as <-. reflexivity.
Qed.

Lemma emit_nameless : forall p ts rest toks,
  outside_name p = true ->
  forallb nameless_token ts = true ->
  (forall t1, rest = Some t1 -> forallb nameless_token t1 = true) ->
  Py.emit p ts rest = Some toks ->
  forallb nameless_token toks = true.
Proof.
  intros p ts rest toks Hp Hts Hrest H. unfold Py.emit in H.
  destruct (Py.flush p) as [t0|] eqn:E0; [|discriminate H].
  destruct rest as [t1|]; [|discriminate H].
  injection H as <-. rewrite !forallb_app.
  rewrite (flush_nameless p t0 Hp E0), Hts, (Hrest t1 eq_refl). reflexivity.
Qed.

(** The tokens of a source without identifier characters hold no name. *)
Lemma lex_from_nameless : forall s p toks,
  name_free s = true ->
  outside_name p = true ->
  Py.lex_from p s = Some toks ->
  forallb nameless_token toks = true.
Proof.
  induction s as [|c s IH]; intros p toks Hs Hp H.
  - exact (flush_nameless p toks Hp H).
  - unfold name_free in Hs. simpl in Hs.
    apply andb_true_iff in Hs as [Hc Hs]. apply negb_true_iff in Hc.
    simpl in H. rewrite Hc in H.
    destruct (Py.is_digit c).
    + destruct p; try discriminate Hp; refine (IH _ _ Hs _ H); reflexivity.
    + destruct (Ascii.eqb c ".").
      * destruct p; try discriminate Hp;
          first [ refine (IH _ _ Hs _ H); reflexivity
                | refine (emit_nameless _ _ _ toks _ _ _ H);
                  [reflexivity|reflexivity
                  |intros t1 Ht1; refine (IH _ _ Hs _ Ht1); reflexivity] ].
      * destruct (Py.operator c s) as [ts|] eqn:Eo; [|discriminate H].
        refine (emit_nameless _ _ _ toks Hp (operator_nameless _ _ _ Eo) _ H).
        intros t1 Ht1; refine (IH _ _ Hs _ Ht1); reflexivity.
Qed.

Lemma no_call_nameless : forall e rest r,
  Py.no_call e rest = Py.Parsed r -> r = (e, rest).
Proof.
  intros e [|[] rest] r H; simpl in H; try discriminate H; now injection H as <-.
Qed.

Lemma forallb_tail : forall (t : Py.token) ts,
  forallb nameless_token (t :: ts) = true ->
  nameless_token t = true /\ forallb nameless_token ts = true.
Proof. intros t ts H. simpl in H. now apply andb_true_iff in H. Qed.

(** Parsing tokens without names gives a tree without names. *)
Lemma parses_nameless_all : forall n, parses_nameless n.
Proof.
  induction n as [|n (IHsum & IHsumr & IHterm & IHtermr & IHfactor)].
  - unfold parses_nameless. split_conj; intros; discriminate.
  - unfold parses_nameless. split_conj.
    + intros ts e rest Hts H. simpl in H.
      destruct (Py.parse_term n ts) as [[e1 r1]| |] eqn:E; try discriminate H.
      destruct (IHterm _ _ _ Hts E) as [He1 Hr1].
      exact (IHsumr _ _ _ _ He1 Hr1 H).
    + intros acc ts e rest Hacc Hts H. simpl in H.
      destruct ts as [|t ts']; [injection H as <- <-; now split|].
      destruct (forallb_tail _ _ Hts) as [_ Hts'].
      destruct t; try (injection H as <- <-; now split);
        (destruct (Py.parse_term n ts') as [[e1 r1]| |] eqn:E; try discriminate H;
         destruct (IHterm _ _ _ Hts' E) as [He1 Hr1];
         refine (IHsumr _ _ _ _ _ Hr1 H); simpl; now rewrite Hacc, He1).
    + intros ts e rest Hts H. simpl in H.
      destruct (Py.parse_factor n ts) as [[e1 r1]| |] eqn:E; try discriminate H.
      destruct (IHfactor _ _ _ Hts E) as [He1 Hr1].
      exact (IHtermr _ _ _ _ He1 Hr1 H).
    + intros acc ts e rest Hacc Hts H. simpl in H.
      destruct ts as [|t ts']; [injection H as <- <-; now split|].
      destruct (forallb_tail _ _ Hts) as [_ Hts'].
      destruct t; try (injection H as <- <-; now split);
        (destruct (Py.parse_factor n ts') as [[e1 r1]| |] eqn:E; try discriminate H;
         destruct (IHfactor _ _ _ Hts' E) as [He1 Hr1];
         refine (IHtermr _ _ _ _ _ Hr1 H); simpl; now rewrite Hacc, He1).
    + intros ts e rest Hts H. simpl in H.
      destruct ts as [|t ts']; [discriminate H|].
      destruct (forallb_tail _ _ Hts) as [Ht Hts'].
      destruct t; try discriminate H; try discriminate Ht.
      * apply no_call_nameless in H. injection H as -> ->. now split.
      * destruct (Py.parse_factor n ts') as [[e1 r1]| |] eqn:E; try discriminate H.
        injection H as <- <-. exact (IHfactor _ _ _ Hts' E).
      * destruct (Py.parse_factor n ts') as [[e1 r1]| |] eqn:E; try discriminate H.
        injection H as <- <-. exact (IHfactor _ _ _ Hts' E).
      * assert (Hp : match Py.parse_sum n ts' with
                     | Py.Parsed (e1, Py.TRParen :: r1) => Py.no_call e1 r1
                     | Py.Parsed (_, _) => Py.Invalid
                     | Py.Invalid => Py.Invalid
                     | Py.Unknown => Py.Unknown
                     end = Py.Parsed (e, rest)).
        { destruct ts' as [|[] ts'']; try exact H; discriminate H. }
        clear H.
        destruct (Py.parse_sum n ts') as [[e1 [|t1 r1]]| |] eqn:E; try discriminate Hp.
        destruct (IHsum _ _ _ Hts' E) as [He1 Hr1].
        destruct (forallb_tail _ _ Hr1) as [_ Hr1'].
        destruct t1; try discriminate Hp.
        apply no_call_nameless in Hp. injection Hp as -> ->. now split.
Qed.

Lemma eval_expr_nameless : forall ns1 ns2 e,
  nameless e = true -> Py.eval_expr ns1 e = Py.eval_expr ns2 e.
Proof.
  intros ns1 ns2 e. induction e as [v|y|f|e IH|e IH|op l IHl r IHr]; simpl; intros H;
    try discriminate H; try reflexivity.
  - now rewrite (IH H).
  - now rewrite (IH H).
  - apply andb_true_iff in H as [Hl Hr]. now rewrite (IHl Hl), (IHr Hr).
Qed.

Lemma compile_nameless : forall source e,
  name_free source = true -> Py.compile source = Py.Parsed e -> nameless e = true.
Proof.
  intros source e Hs H. unfold Py.compile, Py.lex in H.
  destruct (Py.lex_from Py.Idle source) as [ts|] eqn:El; [|discriminate H].
  pose proof (lex_from_nameless source Py.Idle ts Hs eq_refl El) as Hts.
  unfold Py.parse in H.
  repeat match type of H with
         | (if ?b then _ else _) = _ => destruct b; [discriminate H|]
         end.
  destruct (Py.parse_sum _ ts) as [[e1 [|t r]]| |] eqn:E; try discriminate H.
  injection H as <-.
  destruct (parses_nameless_all (4 * List.length ts + 4)) as (Hsum & _).
  exact (proj1 (Hsum _ _ _ Hts E)).
Qed.

(** C6, on the code.  The result depends on more than the argument: with the
    same input "selected_prompt" the calculator answers with whatever the
    select box of the page holds when it is called. *)
Lemma simple_calculator_reads_module_state :
  extract (user_input page_first) = "selected_prompt"
  /\ extract (user_input page_second) = "selected_prompt"
  /\ simple_calculator cpython_messages page_first "selected_prompt"
    = Py.Returns "The result of 'selected_prompt' is: What is 15 * 3?"
  /\ simple_calculator cpython_messages page_second "selected_prompt"
    = Py.Returns "The result of 'selected_prompt' is: What is 1000 - 123?"
  /\ simple_calculator cpython_messages page_first "selected_prompt"
     <> simple_calculator cpython_messages page_second "selected_prompt".
Proof.
  split_conj; vm_compute; [reflexivity|reflexivity|reflexivity|reflexivity|discriminate].
Qed.

(** C6, as amended.  On an expression without identifiers the calculator is
    a function of the expression alone: two invocations with the same input
    give the same result, whatever the module's state at either call.  (An
    identifier makes the result depend on the namespace [eval] runs in.) *)
Theorem simple_calculator_deterministic : forall M g1 g2 expression,
  name_free expression = true ->
  simple_calculator M g1 expression = simple_calculator M g2 expression.
Proof.
  intros M g1 g2 expression Hn. unfold simple_calculator, Py.eval.
  destruct (Py.compile expression) as [e| |] eqn:E; try reflexivity.
  rewrite (eval_expr_nameless (calculator_namespace g1 expression)
             (calculator_namespace g2 expression) e
             (compile_nameless expression e Hn E)).
  reflexivity.
Qed.

Lemma simple_calculator_deterministic_witness :
  name_free "2 * (3 + 4) - 10 / 2" = true
  /\ simple_calculator cpython_messages page_first "2 * (3 + 4) - 10 / 2"
     = simple_calculator cpython_messages page_second "2 * (3 + 4) - 10 / 2".
Proof.
  split; [reflexivity|].
  apply (simple_calculator_deterministic cpython_messages page_first page_second
           "2 * (3 + 4) - 10 / 2").
  reflexivity.
Defined.

(* ================================================================= *)
(** ** The two paths *)


Lemma run_agent_tool : forall M g query,
  is_calculation_request query = true ->
  run_agent M g query
  = Done (finish ["Agent detected a calculation request. Attempting to use calculator tool..."]
            (simple_calculator M g (extract query))).
Proof.
  intros M g query H. unfold run_agent, run_agent_result. rewrite H.
  destruct (simple_calculator M g (extract query)); reflexivity.
Qed.





(* ================================================================= *)
(** ** Running both paths *)

(** C8, on the code.  With "calculate exit()" in the input the direct path
    produces its result, the routed path does not: the SystemExit of the
    calculator ends the handler, although the generator answered its call. *)
Lemma run_both_exit_escapes :
  truthy (user_input page_exit) = true
  /\ classify (user_input page_exit) = ToolInvocation "exit()"
  /\ run_agent cpython_messages page_exit (user_input page_exit)
     = Done (Py.Raises Py.SystemExit)
  /\ exec echo_generator (run_both cpython_messages page_exit) tt
     = (Py.Raises Py.SystemExit, [("calculate exit()", non_agentic_config)], tt)
  /\ exec echo_generator (run_both_results cpython_messages page_exit) tt
     = (Py.Raises Py.SystemExit, [("calculate exit()", non_agentic_config)], tt).
Proof. split_conj; vm_compute; reflexivity. Qed.

(** C8, as amended.  For every non-empty query, when the generator answers
    each call with at least one sequence and the calculator, if the query is
    routed to it, returns a string (it does unless the evaluation raises an
    exception outside Exception), running both paths produces the direct and
    the routed result, each with a non-empty trace, and the handler gets
    their two renderings. *)
Theorem run_both_produces_both : forall M g (S : Type)
    (gen : string -> SamplingConfig -> S -> reply * S) (s : S),
  truthy (user_input g) = true ->
  (forall prompt config s0,
      exists text more s1, gen prompt config s0 = (Sequences (text :: more), s1)) ->
  (is_calculation_request (user_input g) = true ->
   exists text, simple_calculator M g (extract (user_input g)) = Py.Returns text) ->
  exists direct routed calls s',
    exec gen (run_both_results M g) s = (Py.Returns (Some (direct, routed)), calls, s')
    /\ exec gen (run_both M g) s
       = (Py.Returns (Some (render direct, render routed)), calls, s')
    /\ trace direct <> [] /\ trace routed <> [].
Proof.
  intros M g S gen s Ht Hgen Hcalc.
  unfold run_both_results, run_both. rewrite Ht.
  unfold run_non_agentic_llm, run_non_agentic_llm_result.
  destruct (Hgen (user_input g) non_agentic_config s) as (t1 & more1 & s1 & E1).
  unfold run_agent, run_agent_result.
  destruct (is_calculation_request (user_input g)) eqn:E.
  - destruct (Hcalc eq_refl) as [text Ec].
    cbn [exec bind ret first_generated_text]. rewrite E1.
    cbn [exec bind ret first_generated_text]. rewrite Ec.
    cbn [exec bind ret first_generated_text].
    do 4 eexists. split_conj; try reflexivity; discriminate.
  - destruct (Hgen (user_input g) agent_config s1) as (t2 & more2 & s2 & E2).
    cbn [exec bind ret first_generated_text]. rewrite E1.
    cbn [exec bind ret first_generated_text]. rewrite E2.
    cbn [exec bind ret first_generated_text].
    do 4 eexists. split_conj; try reflexivity; discriminate.
Qed.

Lemma run_both_produces_both_witness :
  exists direct routed calls s',
    exec echo_generator (run_both_results cpython_messages page_first) tt
    = (Py.Returns (Some (direct, routed)), calls, s')
    /\ exec echo_generator (run_both cpython_messages page_first) tt
       = (Py.Returns (Some (render direct, render routed)), calls, s')
    /\ trace direct <> [] /\ trace routed <> [].
Proof.
  apply (run_both_produces_both cpython_messages page_first unit echo_generator tt).
  - reflexivity.
  - intros prompt config s0. do 3 eexists. reflexivity.
  - intros _. eexists. vm_compute. reflexivity.
Defined.

(* ================================================================= *)
(** ** The router under changes of the query *)

Lemma lower_app : forall a b, Str.lower (a ++ b) = Str.lower a ++ Str.lower b.
Proof. induction a as [|c a IH]; intros b; simpl; [reflexivity|now rewrite IH]. Qed.

Lemma chars_app : forall a b, chars (a ++ b) = (chars a ++ chars b)%list.
Proof. induction a as [|c a IH]; intros b; simpl; [reflexivity|now rewrite IH]. Qed.

Lemma Substring_embedded : forall p a s b, Substring p s -> Substring p (a ++ s ++ b).
Proof.
  intros p a s b (u & v & ->). exists (a ++ u), (v ++ b).
  now rewrite !append_assoc.
Qed.

Lemma any_in_operators_lower : forall q1 q2,
  Str.lower q1 = Str.lower q2 ->
  Str.any_in operators q1 = Str.any_in operators q2.
Proof.
  intros q1 q2 H. apply Bool.eq_iff_eq_true. rewrite !any_in_operators.
  split; intros (c & Hc & Hin); exists c; (split; [exact Hc|]);
    apply (lower_operator_chars c _ Hc); apply (lower_operator_chars c _ Hc) in Hin.
  - now rewrite <- H.
  - now rewrite H.
Qed.

(** X1.  The routed path does not see the case of the query when it routes to
    the tool: two queries with the same lower-cased text take the same
    branch and give the same extracted expression, and when the branch is
    the calculator's, [run_agent] returns the same for both. *)
Theorem routing_ignores_case : forall M g q1 q2,
  Str.lower q1 = Str.lower q2 ->
  is_calculation_request q1 = is_calculation_request q2
  /\ extract q1 = extract q2
  /\ (is_calculation_request q1 = true -> run_agent M g q1 = run_agent M g q2).
Proof.
  intros M g q1 q2 H.
  assert (Hr : is_calculation_request q1 = is_calculation_request q2).
  { unfold is_calculation_request. now rewrite H, (any_in_operators_lower q1 q2 H). }
  assert (He : extract q1 = extract q2) by (unfold extract; now rewrite H).
  split; [exact Hr|]. split; [exact He|].
  intros H1. rewrite (run_agent_tool M g q1 H1).
  rewrite Hr in H1. rewrite (run_agent_tool M g q2 H1), He. reflexivity.
Qed.

Lemma routing_ignores_case_witness :
  is_calculation_request "CALCULATE 6 * 7" = is_calculation_request "Calculate 6 * 7"
  /\ extract "CALCULATE 6 * 7" = extract "Calculate 6 * 7"
  /\ (is_calculation_request "CALCULATE 6 * 7" = true ->
      run_agent cpython_messages page_first "CALCULATE 6 * 7"
      = run_agent cpython_messages page_first "Calculate 6 * 7").
Proof.
  apply (routing_ignores_case cpython_messages page_first
           "CALCULATE 6 * 7" "Calculate 6 * 7").
  reflexivity.
Defined.

(** X2.  A calculation request stays one inside a longer text: whatever is
    put before and after a query that is routed to the calculator, the
    result is routed to the calculator too. *)
Theorem routing_survives_embedding : forall before query after,
  is_calculation_request query = true ->
  is_calculation_request (before ++ query ++ after) = true.
Proof.
  intros before query after H.
  apply is_calculation_request_spec. apply is_calculation_request_spec in H.
  unfold routes_to_tool in *. rewrite !lower_app.
  destruct H as [H|[H (c & Hc & Hin)]].
  - left. now apply Substring_embedded.
  - right. split; [now apply Substring_embedded|].
    exists c. split; [exact Hc|].
    rewrite !chars_app. apply in_or_app. right. apply in_or_app. now left.
Qed.

Lemma routing_survives_embedding_witness :
  is_calculation_request
    ("Write a poem, then " ++ "calculate 2 + 2" ++ " and sign it.") = true.
Proof.
  apply (routing_survives_embedding "Write a poem, then " "calculate 2 + 2" " and sign it.").
  reflexivity.
Defined.

(* ================================================================= *)
(** ** What the extractor keeps *)

Lemma arithmetic_char_lower : forall d,
  arithmetic_char (Str.lower_char d) = arithmetic_char d
  /\ (arithmetic_char d = true -> Str.lower_char d = d).
Proof.
  intros [[] [] [] [] [] [] [] []]; split; intros; try reflexivity; discriminate.
Qed.

Lemma arithmetic_char_not_space : forall c,
  Str.isspace c = true -> arithmetic_char c = false.
Proof. intros [[] [] [] [] [] [] [] []] H; try reflexivity; discriminate H. Qed.

Lemma skeleton_cons : forall c s,
  skeleton (String c s) = if arithmetic_char c then c :: skeleton s else skeleton s.
Proof. reflexivity. Qed.

Lemma skeleton_lower : forall s, skeleton (Str.lower s) = skeleton s.
Proof.
  induction s as [|c s IH]; [reflexivity|].
  change (Str.lower (String c s)) with (String (Str.lower_char c) (Str.lower s)).
  rewrite !skeleton_cons, IH.
  destruct (arithmetic_char_lower c) as [E F]. rewrite E.
  destruct (arithmetic_char c); [now rewrite F|reflexivity].
Qed.

Lemma skeleton_lstrip : forall s, skeleton (Str.lstrip s) = skeleton s.
Proof.
  induction s as [|c s IH]; [reflexivity|]. simpl Str.lstrip.
  destruct (Str.isspace c) eqn:E; [|reflexivity].
  now rewrite skeleton_cons, (arithmetic_char_not_space c E).
Qed.

Lemma skeleton_rstrip : forall s, skeleton (Str.rstrip s) = skeleton s.
Proof.
  induction s as [|c s IH]; [reflexivity|]. simpl Str.rstrip.
  rewrite (skeleton_cons c s), <- IH.
  destruct (Str.rstrip s) as [|d r].
  - destruct (Str.isspace c) eqn:E.
    + now rewrite (arithmetic_char_not_space c E).
    + now rewrite skeleton_cons.
  - now rewrite (skeleton_cons c).
Qed.

Lemma skeleton_strip : forall s, skeleton (Str.strip s) = skeleton s.
Proof. intros s. unfold Str.strip. now rewrite skeleton_rstrip, skeleton_lstrip. Qed.

(** Removing a phrase without arithmetic characters removes none of them:
    [t] is the part of the occurrence that is still to be passed over. *)
Lemma skeleton_replace_scan : forall old s t,
  old <> EmptyString ->
  forallb (fun c => negb (arithmetic_char c)) (chars old) = true ->
  forallb (fun c => negb (arithmetic_char c)) (chars t) = true ->
  Str.startswith t s = true ->
  skeleton (Str.replace_scan old EmptyString (String.length t) s) = skeleton s.
Proof.
  intros old s. induction s as [|c s IH]; intros t Hne Hold Ht Hs.
  - destruct t; reflexivity.
  - destruct t as [|b t].
    + cbn [String.length Str.replace_scan].
      destruct (Str.startswith old (String c s)) eqn:E.
      * destruct old as [|a old]; [contradiction Hne; reflexivity|].
        simpl in E. apply andb_true_iff in E as [Ea E].
        apply Ascii.eqb_eq in Ea. subst a.
        simpl in Hold. apply andb_true_iff in Hold as [Hc Hold'].
        apply negb_true_iff in Hc.
        cbn [String.length]. rewrite Nat.sub_succ, Nat.sub_0_r.
        change (EmptyString ++ ?x) with x.
        rewrite skeleton_cons, Hc.
        apply IH; [exact Hne| |exact Hold'|exact E].
        simpl. now rewrite Hc, Hold'.
      * pose proof (IH EmptyString Hne Hold eq_refl eq_refl) as IH0.
        cbn [String.length] in IH0. rewrite !skeleton_cons, IH0. reflexivity.
    + simpl in Hs. apply andb_true_iff in Hs as [Eb Hs].
      apply Ascii.eqb_eq in Eb. subst b.
      simpl in Ht. apply andb_true_iff in Ht as [Hc Ht'].
      apply negb_true_iff in Hc.
      cbn [String.length Str.replace_scan].
      rewrite skeleton_cons, Hc.
      apply IH; assumption.
Qed.

Lemma skeleton_remove : forall old s,
  old <> EmptyString ->
  forallb (fun c => negb (arithmetic_char c)) (chars old) = true ->
  skeleton (Str.replace_scan old EmptyString 0 s) = skeleton s.
Proof.
  intros old s Hne Hold.
  exact (skeleton_replace_scan old s EmptyString Hne Hold eq_refl eq_refl).
Qed.

(** X3.  The extractor never drops, adds or reorders a digit, an operator, a
    parenthesis or a decimal point: the arithmetic characters of the
    extracted expression are those of the query, in the same order. *)
Theorem extract_keeps_arithmetic : forall query,
  skeleton (extract query) = skeleton query.
Proof.
  intros query. rewrite extract_unfold.
  rewrite skeleton_strip.
  rewrite skeleton_remove by (discriminate || reflexivity).
  rewrite skeleton_remove by (discriminate || reflexivity).
  rewrite skeleton_strip.
  rewrite skeleton_remove by (discriminate || reflexivity).
  rewrite skeleton_remove by (discriminate || reflexivity).
  apply skeleton_lower.
Qed.

(* ================================================================= *)
(** ** The extractor on the two phrasings of the examples *)

Lemma contains_first_char : forall a p s,
  Str.contains (String a p) s = true -> In a (chars s).
Proof.
  intros a p s. induction s as [|c s IH]; simpl; intros H.
  - discriminate H.
  - apply orb_true_iff in H as [H|H].
    + apply andb_true_iff in H as [H _]. apply Ascii.eqb_eq in H. now left.
    + right. exact (IH H).
Qed.

(** A phrase whose first character does not occur is not there to remove. *)
Lemma remove_absent : forall a p s,
  ~ In a (chars s) -> Str.replace_scan (String a p) EmptyString 0 s = s.
Proof.
  intros a p s H. apply replace_scan_absent.
  destruct (Str.contains (String a p) s) eqn:E; [|reflexivity].
  contradiction H. exact (contains_first_char a p s E).
Qed.

Lemma expression_text_chars : forall e c,
  expression_text e = true -> In c (chars e) ->
  arithmetic_char c || Ascii.eqb c " " = true.
Proof.
  intros e c He Hin. unfold expression_text in He.
  rewrite forallb_forall in He. exact (He c Hin).
Qed.

Lemma expression_text_lower : forall e, expression_text e = true -> Str.lower e = e.
Proof.
  induction e as [|c e IH]; intros H; [reflexivity|].
  unfold expression_text in H. simpl in H. apply andb_true_iff in H as [Hc He].
  simpl. rewrite (IH He). f_equal.
  destruct c as [[] [] [] [] [] [] [] []]; try reflexivity; discriminate Hc.
Qed.

(** No letter and no question mark occurs in a string of arithmetic
    characters and spaces. *)
Lemma expression_text_without : forall e c,
  expression_text e = true ->
  arithmetic_char c || Ascii.eqb c " " = false ->
  ~ In c (chars e).
Proof.
  intros e c He Hc Hin. rewrite (expression_text_chars e c He Hin) in Hc.
  discriminate Hc.
Qed.

Lemma lstrip_app : forall e c t,
  Str.isspace c = false ->
  Str.lstrip (e ++ String c t) = Str.lstrip e ++ String c t.
Proof.
  intros e c t Hc. induction e as [|d e IH]; simpl.
  - now rewrite Hc.
  - destruct (Str.isspace d); [exact IH|reflexivity].
Qed.

Lemma rstrip_snoc : forall x c,
  Str.isspace c = false ->
  Str.rstrip (x ++ String c EmptyString) = x ++ String c EmptyString.
Proof.
  intros x c Hc. induction x as [|d x IH]; simpl.
  - now rewrite Hc.
  - simpl in IH. rewrite IH. destruct x; reflexivity.
Qed.

Lemma remove_final_question : forall x,
  ~ In "?"%char (chars x) ->
  Str.replace_scan "?" EmptyString 0 (x ++ "?") = x.
Proof.
  induction x as [|d x IH]; intros H; [reflexivity|].
  change (Str.replace_scan "?" EmptyString 0 (String d x ++ "?")) with
    (if Ascii.eqb "?" d && true
     then Str.replace_scan "?" EmptyString 0 (x ++ "?")
     else String d (Str.replace_scan "?" EmptyString 0 (x ++ "?"))).
  rewrite andb_true_r.
  destruct (Ascii.eqb_spec "?"%char d) as [E|E].
  - contradiction H. left. now symmetry.
  - rewrite IH; [reflexivity|]. intros Hin. apply H. now right.
Qed.

Lemma lstrip_idempotent : forall s, Str.lstrip (Str.lstrip s) = Str.lstrip s.
Proof. intros s. apply lstrip_fixed, lstrip_starts_clean. Qed.

Lemma extract_what_is : forall e,
  expression_text e = true ->
  extract ("What is " ++ e ++ "?") = Str.strip e.
Proof.
  intros e He. rewrite extract_unfold.
  assert (Hw : forall c, arithmetic_char c || Ascii.eqb c " " = false ->
                         c <> "?"%char -> ~ In c (chars (e ++ "?"))).
  { intros c Hc Hq Hin. rewrite chars_app in Hin. apply in_app_or in Hin as [Hin|Hin].
    - exact (expression_text_without e c He Hc Hin).
    - destruct Hin as [Hin|[]]. apply Hq. now symmetry. }
  rewrite lower_app, (lower_app e), (expression_text_lower e He).
  change (Str.lower "What is ") with "what is ".
  change (Str.lower "?") with "?".
  rewrite (remove_absent "c" "alculate").
  2:{ change ("what is " ++ e ++ "?") with
        (String "w" (String "h" (String "a" (String "t" (String " "
          (String "i" (String "s" (String " " (e ++ "?"))))))))).
      simpl. intros H. repeat (destruct H as [H|H]; [discriminate H|]).
      revert H. apply Hw; [reflexivity|discriminate]. }
  change (Str.replace_scan "what is" EmptyString 0 ("what is " ++ e ++ "?")) with
    (String " " (Str.replace_scan "what is" EmptyString 0 (e ++ "?"))).
  rewrite (remove_absent "w" "hat is") by (apply Hw; [reflexivity|discriminate]).
  change (Str.strip (String " " (e ++ "?"))) with (Str.rstrip (Str.lstrip (e ++ "?"))).
  rewrite (lstrip_app e "?" EmptyString eq_refl).
  rewrite (rstrip_snoc (Str.lstrip e) "?" eq_refl).
  rewrite remove_final_question.
  2:{ intros H. apply (Subseq_chars _ _ _ (lstrip_Subseq e)) in H.
      exact (expression_text_without e "?" He eq_refl H). }
  rewrite (remove_absent "t" "he result of").
  2:{ intros H. apply (Subseq_chars _ _ _ (lstrip_Subseq e)) in H.
      exact (expression_text_without e "t" He eq_refl H). }
  unfold Str.strip. now rewrite lstrip_idempotent.
Qed.

Lemma extract_calculate : forall e,
  expression_text e = true ->
  extract ("Calculate " ++ e) = Str.strip e.
Proof.
  intros e He. rewrite extract_unfold.
  rewrite lower_app, (expression_text_lower e He).
  change (Str.lower "Calculate ") with "calculate ".
  change (Str.replace_scan "calculate" EmptyString 0 ("calculate " ++ e)) with
    (String " " (Str.replace_scan "calculate" EmptyString 0 e)).
  rewrite (remove_absent "c" "alculate")
    by exact (expression_text_without e "c" He eq_refl).
  rewrite (remove_absent "w" "hat is").
  2:{ simpl. intros [H|H]; [discriminate H|].
      exact (expression_text_without e "w" He eq_refl H). }
  change (Str.strip (String " " e)) with (Str.strip e).
  rewrite (remove_absent "?" EmptyString).
  2:{ intros H. apply (Subseq_chars _ _ _ (strip_Subseq e)) in H.
      exact (expression_text_without e "?" He eq_refl H). }
  rewrite (remove_absent "t" "he result of").
  2:{ intros H. apply (Subseq_chars _ _ _ (strip_Subseq e)) in H.
      exact (expression_text_without e "t" He eq_refl H). }
  apply strip_idempotent.
Qed.

Lemma what_is_routing : forall e,
  expression_text e = true ->
  is_calculation_request ("What is " ++ e ++ "?") = Str.any_in operators e.
Proof.
  intros e He. unfold is_calculation_request.
  rewrite lower_app, (lower_app e), (expression_text_lower e He).
  change (Str.lower "What is ") with "what is ".
  change (Str.lower "?") with "?".
  assert (Hc : Str.contains "calculate" ("what is " ++ e ++ "?") = false).
  { destruct (Str.contains "calculate" ("what is " ++ e ++ "?")) eqn:E; [|reflexivity].
    apply contains_first_char in E. rewrite chars_app, chars_app in E.
    apply in_app_or in E as [E|E].
    - simpl in E. repeat (destruct E as [E|E]; [discriminate E|]). contradiction E.
    - apply in_app_or in E as [E|E].
      + contradiction (expression_text_without e "c" He eq_refl E).
      + simpl in E. destruct E as [E|[]]. discriminate E. }
  rewrite Hc.
  assert (Hw : Str.contains "what is" ("what is " ++ e ++ "?") = true)
    by (apply startswith_contains; reflexivity).
  rewrite Hw. cbn [orb andb].
  apply Bool.eq_iff_eq_true. rewrite !any_in_operators.
  split; intros (c & Hc' & Hin); exists c; (split; [exact Hc'|]).
  - rewrite chars_app, chars_app in Hin.
    apply in_app_or in Hin as [Hin|Hin]; [|apply in_app_or in Hin as [Hin|Hin]].
    + simpl in Hc', Hin.
      destruct Hc' as [<-|[<-|[<-|[<-|[]]]]];
        repeat (destruct Hin as [Hin|Hin]; [discriminate Hin|]); contradiction Hin.
    + exact Hin.
    + simpl in Hc', Hin.
      destruct Hc' as [<-|[<-|[<-|[<-|[]]]]];
        repeat (destruct Hin as [Hin|Hin]; [discriminate Hin|]); contradiction Hin.
  - rewrite chars_app, chars_app. apply in_or_app. right. apply in_or_app. now left.
Qed.

Lemma calculate_routing : forall e, is_calculation_request ("Calculate " ++ e) = true.
Proof.
  intros e. unfold is_calculation_request. rewrite lower_app.
  change (Str.lower "Calculate ") with "calculate ".
  assert (H : Str.contains "calculate" ("calculate " ++ Str.lower e) = true)
    by (apply startswith_contains; reflexivity).
  now rewrite H.
Qed.

(** X4.  The extractor recovers the expression from the two phrasings of
    the example prompts.  For every expression [e] written with digits,
    operators, parentheses, decimal points and spaces: "Calculate e" is
    always routed to the calculator, "What is e?" exactly when [e] holds an
    operator, and in both cases the calculator is given [e] with its
    surrounding spaces removed, and [run_agent] returns the trace line and
    the calculator's answer on it. *)
Theorem extract_recovers_expression : forall M g e,
  expression_text e = true ->
  extract ("What is " ++ e ++ "?") = Str.strip e
  /\ extract ("Calculate " ++ e) = Str.strip e
  /\ is_calculation_request ("What is " ++ e ++ "?") = Str.any_in operators e
  /\ is_calculation_request ("Calculate " ++ e) = true
  /\ run_agent M g ("Calculate " ++ e)
     = Done (finish ["Agent detected a calculation request. Attempting to use calculator tool..."]
               (simple_calculator M g (Str.strip e)))
  /\ (Str.any_in operators e = true ->
      run_agent M g ("What is " ++ e ++ "?")
      = Done (finish ["Agent detected a calculation request. Attempting to use calculator tool..."]
                (simple_calculator M g (Str.strip e)))).
Proof.
  intros M g e He.
  pose proof (extract_what_is e He) as Hw.
  pose proof (extract_calculate e He) as Hc.
  pose proof (what_is_routing e He) as Rw.
  pose proof (calculate_routing e) as Rc.
  split_conj; try assumption.
  - now rewrite (run_agent_tool M g _ Rc), Hc.
  - intros Ho. rewrite <- Rw in Ho. now rewrite (run_agent_tool M g _ Ho), Hw.
Qed.

Lemma extract_recovers_expression_witness :
  extract ("What is " ++ " (12 + 3.5) * 4 " ++ "?") = Str.strip " (12 + 3.5) * 4 "
  /\ extract ("Calculate " ++ " (12 + 3.5) * 4 ") = Str.strip " (12 + 3.5) * 4 "
  /\ is_calculation_request ("What is " ++ " (12 + 3.5) * 4 " ++ "?")
     = Str.any_in operators " (12 + 3.5) * 4 "
  /\ is_calculation_request ("Calculate " ++ " (12 + 3.5) * 4 ") = true
  /\ run_agent cpython_messages page_first ("Calculate " ++ " (12 + 3.5) * 4 ")
     = Done (finish ["Agent detected a calculation request. Attempting to use calculator tool..."]
               (simple_calculator cpython_messages page_first (Str.strip " (12 + 3.5) * 4 ")))
  /\ (Str.any_in operators " (12 + 3.5) * 4 " = true ->
      run_agent cpython_messages page_first ("What is " ++ " (12 + 3.5) * 4 " ++ "?")
      = Done (finish ["Agent detected a calculation request. Attempting to use calculator tool..."]
                (simple_calculator cpython_messages page_first (Str.strip " (12 + 3.5) * 4 ")))).
Proof.
  apply (extract_recovers_expression cpython_messages page_first " (12 + 3.5) * 4 ").
  reflexivity.
Defined.

(* ================================================================= *)
(** ** The calculator on integer literals *)

Lemma append_nil_r : forall s : string, s ++ EmptyString = s.
Proof. induction s; simpl; [reflexivity|now f_equal]. Qed.

Lemma lex_digits : forall ds acc rest,
  forallb Py.is_digit (chars ds) = true ->
  Py.lex_from (Py.Digits acc) (ds ++ rest) = Py.lex_from (Py.Digits (acc ++ ds)) rest.
Proof.
  induction ds as [|c ds IH]; intros acc rest H.
  - now rewrite append_nil_r.
  - simpl in H. apply andb_true_iff in H as [Hc Hds].
    cbn [append Py.lex_from]. rewrite Hc, (IH _ _ Hds).
    unfold Py.snoc. now rewrite append_assoc.
Qed.

(** A literal at the start of the input is read to its end. *)
Lemma lex_literal : forall a x rest,
  integer_literal a x ->
  Py.lex_from Py.Idle (a ++ rest) = Py.lex_from (Py.Digits a) rest.
Proof.
  intros a x rest (Hd & Hne & _).
  destruct a as [|c a]; [contradiction Hne; reflexivity|].
  simpl in Hd. apply andb_true_iff in Hd as [Hc Hd].
  cbn [append Py.lex_from]. rewrite Hc.
  exact (lex_digits a (String c EmptyString) rest Hd).
Qed.

Lemma lex_literal_end : forall a x,
  integer_literal a x -> Py.lex_from Py.Idle a = Some [Py.TNum (Py.VInt x)].
Proof.
  intros a x H. rewrite <- (append_nil_r a) at 1. rewrite (lex_literal a x _ H).
  destruct H as (_ & _ & Hl). simpl. now rewrite Hl.
Qed.

Lemma lex_literal_space : forall a x r,
  integer_literal a x ->
  Py.lex_from Py.Idle (a ++ String " " r)
  = option_map (cons (Py.TNum (Py.VInt x))) (Py.lex_from Py.Idle r).
Proof.
  intros a x r H. rewrite (lex_literal a x _ H).
  destruct H as (_ & _ & Hl).
  cbn [Py.lex_from]. change (Py.is_digit " ") with false.
  change (Py.is_name_start " ") with false. change (Ascii.eqb " " ".") with false.
  cbv iota. change (Py.operator " " r) with (Some (@nil Py.token)).
  unfold Py.emit. simpl Py.flush. rewrite Hl. simpl.
  destruct (Py.lex_from Py.Idle r); reflexivity.
Qed.

Lemma lex_literal_rparen : forall a x r,
  integer_literal a x ->
  Py.lex_from Py.Idle (a ++ String ")" r)
  = option_map (fun ts => Py.TNum (Py.VInt x) :: Py.TRParen :: ts) (Py.lex_from Py.Idle r).
Proof.
  intros a x r H. rewrite (lex_literal a x _ H).
  destruct H as (_ & _ & Hl).
  cbn [Py.lex_from]. change (Py.is_digit ")") with false.
  change (Py.is_name_start ")") with false. change (Ascii.eqb ")" ".") with false.
  cbv iota. change (Py.operator ")" r) with (Some [Py.TRParen]).
  unfold Py.emit. simpl Py.flush. rewrite Hl. simpl.
  destruct (Py.lex_from Py.Idle r); reflexivity.
Qed.

(** An operator between spaces, or a parenthesis after a space. *)
Lemma lex_spaced : forall r,
  Py.lex_from Py.Idle ("+ " ++ r) = option_map (cons Py.TPlus) (Py.lex_from Py.Idle r)
  /\ Py.lex_from Py.Idle ("- " ++ r) = option_map (cons Py.TMinus) (Py.lex_from Py.Idle r)
  /\ Py.lex_from Py.Idle ("* " ++ r) = option_map (cons Py.TStar) (Py.lex_from Py.Idle r)
  /\ Py.lex_from Py.Idle ("/ " ++ r) = option_map (cons Py.TSlash) (Py.lex_from Py.Idle r)
  /\ Py.lex_from Py.Idle ("* (" ++ r)
     = option_map (fun ts => Py.TStar :: Py.TLParen :: ts) (Py.lex_from Py.Idle r).
Proof.
  intros r. split_conj; cbn; unfold Py.emit; simpl;
    destruct (Py.lex_from Py.Idle r); reflexivity.
Qed.

Lemma eval_tokens : forall ns source ts e,
  Py.lex source = Some ts -> Py.parse ts = Py.Parsed e ->
  Py.eval ns source = Py.eval_expr ns e.
Proof.
  intros ns source ts e Hl Hp. unfold Py.eval, Py.compile. now rewrite Hl, Hp.
Qed.

Lemma simple_calculator_success : forall M g expression v text,
  Py.eval (calculator_namespace g expression) expression = Py.Returns v ->
  Py.format v = Some text ->
  simple_calculator M g expression
  = Py.Returns ("The result of '" ++ expression ++ "' is: " ++ text).
Proof.
  intros M g expression v text He Hf. unfold simple_calculator. now rewrite He, Hf.
Qed.

Lemma lex_sum_product : forall a b c x y z,
  integer_literal a x -> integer_literal b y -> integer_literal c z ->
  Py.lex (a ++ " + " ++ b ++ " * " ++ c)
  = Some [Py.TNum (Py.VInt x); Py.TPlus; Py.TNum (Py.VInt y); Py.TStar; Py.TNum (Py.VInt z)].
Proof.
  intros a b c x y z Ha Hb Hc. unfold Py.lex.
  change (" + " ++ b ++ " * " ++ c) with (String " " ("+ " ++ b ++ String " " ("* " ++ c))).
  rewrite (lex_literal_space a x _ Ha).
  rewrite (proj1 (lex_spaced _)), (lex_literal_space b y _ Hb).
  rewrite (proj1 (proj2 (proj2 (lex_spaced _)))), (lex_literal_end c z Hc).
  reflexivity.
Qed.

Lemma lex_difference : forall a b c x y z,
  integer_literal a x -> integer_literal b y -> integer_literal c z ->
  Py.lex (a ++ " - " ++ b ++ " - " ++ c)
  = Some [Py.TNum (Py.VInt x); Py.TMinus; Py.TNum (Py.VInt y); Py.TMinus; Py.TNum (Py.VInt z)].
Proof.
  intros a b c x y z Ha Hb Hc. unfold Py.lex.
  change (" - " ++ b ++ " - " ++ c) with (String " " ("- " ++ b ++ String " " ("- " ++ c))).
  rewrite (lex_literal_space a x _ Ha).
  rewrite (proj1 (proj2 (lex_spaced _))), (lex_literal_space b y _ Hb).
  rewrite (proj1 (proj2 (lex_spaced _))), (lex_literal_end c z Hc).
  reflexivity.
Qed.

Lemma lex_product_of_sum : forall a b c x y z,
  integer_literal a x -> integer_literal b y -> integer_literal c z ->
  Py.lex (a ++ " * (" ++ b ++ " + " ++ c ++ ")")
  = Some [Py.TNum (Py.VInt x); Py.TStar; Py.TLParen; Py.TNum (Py.VInt y); Py.TPlus;
          Py.TNum (Py.VInt z); Py.TRParen].
Proof.
  intros a b c x y z Ha Hb Hc. unfold Py.lex.
  change (" * (" ++ b ++ " + " ++ c ++ ")")
    with (String " " ("* (" ++ b ++ String " " ("+ " ++ c ++ String ")" EmptyString))).
  rewrite (lex_literal_space a x _ Ha).
  rewrite (proj2 (proj2 (proj2 (proj2 (lex_spaced _))))), (lex_literal_space b y _ Hb).
  rewrite (proj1 (lex_spaced _)), (lex_literal_rparen c z _ Hc).
  reflexivity.
Qed.

(** X6.  The calculator applies the usual precedence and associativity to
    integer literals: for literals [a], [b], [c] of values [x], [y], [z],
    "a + b * c" evaluates to x + y * z, "a - b - c" to (x - y) - z,
    "a * (b + c)" to x * (y + z), exactly as integers; and the answer to
    "a + b * c" is the success text around the decimal rendering of
    x + y * z. *)
Theorem calculator_precedence : forall M g a b c x y z,
  integer_literal a x -> integer_literal b y -> integer_literal c z ->
  Py.eval (calculator_namespace g (a ++ " + " ++ b ++ " * " ++ c))
          (a ++ " + " ++ b ++ " * " ++ c)
  = Py.Returns (Py.VInt (x + y * z))
  /\ Py.eval (calculator_namespace g (a ++ " - " ++ b ++ " - " ++ c))
             (a ++ " - " ++ b ++ " - " ++ c)
     = Py.Returns (Py.VInt (x - y - z))
  /\ Py.eval (calculator_namespace g (a ++ " * (" ++ b ++ " + " ++ c ++ ")"))
             (a ++ " * (" ++ b ++ " + " ++ c ++ ")")
     = Py.Returns (Py.VInt (x * (y + z)))
  /\ (forall text,
        Py.format (Py.VInt (x + y * z)) = Some text ->
        simple_calculator M g (a ++ " + " ++ b ++ " * " ++ c)
        = Py.Returns ("The result of '" ++ (a ++ " + " ++ b ++ " * " ++ c)
                      ++ "' is: " ++ text)).
Proof.
  intros M g a b c x y z Ha Hb Hc.
  assert (H1 : forall ns, Py.eval ns (a ++ " + " ++ b ++ " * " ++ c)
                          = Py.Returns (Py.VInt (x + y * z))).
  { intros ns.
    rewrite (eval_tokens ns _ _ (Py.EBin Py.Add (Py.ENum (Py.VInt x))
               (Py.EBin Py.Mul (Py.ENum (Py.VInt y)) (Py.ENum (Py.VInt z))))
               (lex_sum_product a b c x y z Ha Hb Hc) eq_refl).
    reflexivity. }
  split_conj.
  - apply H1.
  - rewrite (eval_tokens _ _ _ (Py.EBin Py.Sub
               (Py.EBin Py.Sub (Py.ENum (Py.VInt x)) (Py.ENum (Py.VInt y)))
               (Py.ENum (Py.VInt z)))
               (lex_difference a b c x y z Ha Hb Hc) eq_refl).
    reflexivity.
  - rewrite (eval_tokens _ _ _ (Py.EBin Py.Mul (Py.ENum (Py.VInt x))
               (Py.EBin Py.Add (Py.ENum (Py.VInt y)) (Py.ENum (Py.VInt z))))
               (lex_product_of_sum a b c x y z Ha Hb Hc) eq_refl).
    reflexivity.
  - intros text Hf. exact (simple_calculator_success M g _ _ text (H1 _) Hf).
Qed.

Lemma calculator_precedence_witness :
  Py.eval (calculator_namespace page_first ("2" ++ " + " ++ "3" ++ " * " ++ "4"))
          ("2" ++ " + " ++ "3" ++ " * " ++ "4")
  = Py.Returns (Py.VInt (2 + 3 * 4))
  /\ Py.eval (calculator_namespace page_first ("2" ++ " - " ++ "3" ++ " - " ++ "4"))
             ("2" ++ " - " ++ "3" ++ " - " ++ "4")
     = Py.Returns (Py.VInt (2 - 3 - 4))
  /\ Py.eval (calculator_namespace page_first ("2" ++ " * (" ++ "3" ++ " + " ++ "4" ++ ")"))
             ("2" ++ " * (" ++ "3" ++ " + " ++ "4" ++ ")")
     = Py.Returns (Py.VInt (2 * (3 + 4)))
  /\ (forall text,
        Py.format (Py.VInt (2 + 3 * 4)) = Some text ->
        simple_calculator cpython_messages page_first ("2" ++ " + " ++ "3" ++ " * " ++ "4")
        = Py.Returns ("The result of '" ++ ("2" ++ " + " ++ "3" ++ " * " ++ "4")
                      ++ "' is: " ++ text)).
Proof.
  apply (calculator_precedence cpython_messages page_first "2" "3" "4" 2 3 4);
    (split; [reflexivity|split; [discriminate|reflexivity]]).
Defined.

Lemma digit_not_space : forall c, Py.is_digit c = true -> Str.isspace c = false.
Proof. intros [[] [] [] [] [] [] [] []] H; try reflexivity; discriminate H. Qed.

Lemma rstrip_clean : forall b,
  forallb (fun c => negb (Str.isspace c)) (chars b) = true -> Str.rstrip b = b.
Proof.
  induction b as [|c b IH]; intros H; [reflexivity|].
  simpl in H. apply andb_true_iff in H as [Hc Hb]. apply negb_true_iff in Hc.
  simpl. rewrite (IH Hb), Hc. destruct b; reflexivity.
Qed.

Lemma rstrip_app_clean : forall u b,
  b <> EmptyString ->
  forallb (fun c => negb (Str.isspace c)) (chars b) = true ->
  Str.rstrip (u ++ b) = u ++ b.
Proof.
  intros u b Hne Hb. induction u as [|d u IH]; simpl.
  - exact (rstrip_clean b Hb).
  - rewrite IH. destruct u; [destruct b; [contradiction Hne|]|]; reflexivity.
Qed.

Lemma literal_clean : forall a x,
  integer_literal a x ->
  forallb (fun c => negb (Str.isspace c)) (chars a) = true
  /\ expression_text a = true
  /\ starts_clean a = true.
Proof.
  intros a x (Hd & Hne & _).
  rewrite forallb_forall in Hd. split_conj.
  - apply forallb_forall. intros c Hc.
    now rewrite (digit_not_space c (Hd c Hc)).
  - apply forallb_forall. intros c Hc.
    unfold arithmetic_char. now rewrite (Hd c Hc).
  - destruct a as [|c a]; [reflexivity|]. simpl.
    now rewrite (digit_not_space c (Hd c (or_introl eq_refl))).
Qed.

Lemma quotient_text : forall a b x y,
  integer_literal a x -> integer_literal b y ->
  expression_text (a ++ " / " ++ b) = true
  /\ Str.strip (a ++ " / " ++ b) = a ++ " / " ++ b.
Proof.
  intros a b x y Ha Hb.
  destruct (literal_clean a x Ha) as (_ & Ea & Sa).
  destruct (literal_clean b y Hb) as (Cb & Eb & _).
  split.
  - unfold expression_text in *. rewrite chars_app, forallb_app, Ea.
    rewrite chars_app, forallb_app, Eb. reflexivity.
  - unfold Str.strip. rewrite lstrip_fixed.
    + rewrite <- append_assoc. apply rstrip_app_clean; [|exact Cb].
      destruct Hb as (_ & Hne & _). exact Hne.
    + destruct a as [|c a]; [|exact Sa].
      destruct Ha as (_ & Hne & _). contradiction Hne. reflexivity.
Qed.

(** X7.  Division by an integer literal of value zero is reported as text,
    whatever the numerator: the calculator returns the error string with
    "division by zero", and [run_agent], asked "Calculate a / b", returns
    its trace line and that string. *)
Theorem division_by_zero_is_reported : forall M g a b x,
  integer_literal a x -> integer_literal b 0 ->
  simple_calculator M g (a ++ " / " ++ b)
  = Py.Returns ("Error evaluating expression '" ++ (a ++ " / " ++ b)
                ++ "': division by zero")
  /\ run_agent M g ("Calculate " ++ a ++ " / " ++ b)
     = Done (Py.Returns
         ("Agent detected a calculation request. Attempting to use calculator tool..."
          ++ String "010" (String "010" "")
          ++ "Error evaluating expression '" ++ (a ++ " / " ++ b)
          ++ "': division by zero")).
Proof.
  intros M g a b x Ha Hb.
  assert (Hl : Py.lex (a ++ " / " ++ b)
               = Some [Py.TNum (Py.VInt x); Py.TSlash; Py.TNum (Py.VInt 0)]).
  { unfold Py.lex.
    change (" / " ++ b) with (String " " ("/ " ++ b)).
    rewrite (lex_literal_space a x _ Ha).
    rewrite (proj1 (proj2 (proj2 (proj2 (lex_spaced _))))), (lex_literal_end b 0 Hb).
    reflexivity. }
  assert (He : Py.eval (calculator_namespace g (a ++ " / " ++ b)) (a ++ " / " ++ b)
               = Py.Raises (Py.ZeroDivisionError false)).
  { rewrite (eval_tokens _ _ _ (Py.EBin Py.Div (Py.ENum (Py.VInt x)) (Py.ENum (Py.VInt 0)))
               Hl eq_refl).
    reflexivity. }
  assert (Hs : simple_calculator M g (a ++ " / " ++ b)
               = Py.Returns ("Error evaluating expression '" ++ (a ++ " / " ++ b)
                             ++ "': division by zero")).
  { exact (simple_calculator_caught M g _ _ He eq_refl). }
  split; [exact Hs|].
  destruct (quotient_text a b x 0 Ha Hb) as [Ht Hstrip].
  rewrite (run_agent_tool M g _ (calculate_routing _)).
  rewrite (extract_calculate _ Ht), Hstrip, Hs. reflexivity.
Qed.

Lemma division_by_zero_is_reported_witness :
  simple_calculator cpython_messages page_first ("1000" ++ " / " ++ "00")
  = Py.Returns ("Error evaluating expression '" ++ ("1000" ++ " / " ++ "00")
                ++ "': division by zero")
  /\ run_agent cpython_messages page_first ("Calculate " ++ "1000" ++ " / " ++ "00")
     = Done (Py.Returns
         ("Agent detected a calculation request. Attempting to use calculator tool..."
          ++ String "010" (String "010" "")
          ++ "Error evaluating expression '" ++ ("1000" ++ " / " ++ "00")
          ++ "': division by zero")).
Proof.
  apply (division_by_zero_is_reported cpython_messages page_first "1000" "00" 1000);
    (split; [reflexivity|split; [discriminate|reflexivity]]).
Defined.

(* ================================================================= *)
(** ** Edge cases of the routed path *)

(** X5.  A query that is routed to the calculator and of which nothing is
    left after the extraction (only phrases, question marks and blanks)
    gets the calculator's error text for the empty expression as its
    response: [run_agent] ends normally, without calling the generator. *)
Theorem empty_expression_is_reported : forall M g query,
  is_calculation_request query = true ->
  extract query = EmptyString ->
  run_agent M g query
  = Done (Py.Returns
      ("Agent detected a calculation request. Attempting to use calculator tool..."
       ++ String "010" (String "010" "")
       ++ "Error evaluating expression '': " ++ Py.syntax_error_text M EmptyString)).
Proof.
  intros M g query Hr He. rewrite (run_agent_tool M g query Hr), He. reflexivity.
Qed.

Lemma empty_expression_is_reported_witness :
  run_agent cpython_messages page_first " Calculate the result of ?? "
  = Done (Py.Returns
      ("Agent detected a calculation request. Attempting to use calculator tool..."
       ++ String "010" (String "010" "")
       ++ "Error evaluating expression '': "
       ++ Py.syntax_error_text cpython_messages EmptyString)).
Proof.
  apply (empty_expression_is_reported cpython_messages page_first
           " Calculate the result of ?? "); reflexivity.
Defined.

(* ================================================================= *)
(** ** The handler of the button *)


(** X9.  The calculator's path depends on the generator's health: when the
    direct path's call fails (the generator raises, or returns no
    sequence), the handler ends with that exception after this one call,
    and the routed path is not run, even for a calculation request that
    needs no generator. *)
Theorem direct_failure_aborts_both : forall M g (S : Type)
    (gen : string -> SamplingConfig -> S -> reply * S) (s : S) e,
  truthy (user_input g) = true ->
  first_generated_text (fst (gen (user_input g) non_agentic_config s)) = Py.Raises e ->
  exec gen (run_both M g) s
  = (Py.Raises e, [(user_input g, non_agentic_config)],
     snd (gen (user_input g) non_agentic_config s)).
Proof.
  intros M g S gen s e Ht He. unfold run_both. rewrite Ht.
  unfold run_non_agentic_llm, run_non_agentic_llm_result.
  cbn [exec bind ret].
  destruct (gen (user_input g) non_agentic_config s) as [r s1].
  cbn [fst snd] in *. rewrite He. reflexivity.
Qed.

Lemma direct_failure_aborts_both_witness :
  is_calculation_request (user_input (page_selecting "What is 15 * 3?")) = true
  /\ exec failing_generator (run_both cpython_messages (page_selecting "What is 15 * 3?")) tt
     = (Py.Raises (Py.Other true "model unavailable"),
        [(user_input (page_selecting "What is 15 * 3?"), non_agentic_config)],
        snd (failing_generator (user_input (page_selecting "What is 15 * 3?"))
               non_agentic_config tt)).
Proof.
  split; [reflexivity|].
  apply (direct_failure_aborts_both cpython_messages (page_selecting "What is 15 * 3?")
           unit failing_generator tt (Py.Other true "model unavailable"));
    reflexivity.
Defined.

(** X10.  The direct path's answer, for any generator: the prompt is the
    query unchanged, and the response is the fixed trace line, an empty
    line and the text of the first returned sequence, whatever follows it;
    an empty list of sequences ends the path with IndexError and an
    exception of the generator passes through unchanged (neither is turned
    into text, unlike a failure of the calculator). *)
Theorem run_non_agentic_llm_response : forall query (S : Type)
    (gen : string -> SamplingConfig -> S -> reply * S) (s : S),
  exec gen (run_non_agentic_llm query) s
  = (match fst (gen query non_agentic_config s) with
     | Sequences (text :: _) =>
         Py.Returns ("Directly generating response using LLM (no tools).."
                     ++ String "010" (String "010" "") ++ text)
     | Sequences [] => Py.Raises Py.IndexError
     | Failure e => Py.Raises e
     end,
     [(query, non_agentic_config)],
     snd (gen query non_agentic_config s)).
Proof.
  intros query S gen s.
  unfold run_non_agentic_llm, run_non_agentic_llm_result.
  cbn [exec bind ret].
  destruct (gen query non_agentic_config s) as [[[|text more]|e] s1]; reflexivity.
Qed.

(* ================================================================= *)
(** ** The example prompts *)

(** X11.  The example prompts behave as the source annotates them.  While
    the placeholder is selected the proposed input is empty and the handler
    runs nothing; the three prompts marked as math queries are routed to
    the calculator and answered with 45, 5.0 and 877; the two others are
    routed to the generator with the prompt unchanged. *)
Theorem example_prompts_routing : forall M (S : Type)
    (gen : string -> SamplingConfig -> S -> reply * S) (s : S),
  map text_input_value example_prompts = EmptyString :: tl example_prompts
  /\ exec gen (run_both M (page_selecting (nth 0 example_prompts EmptyString))) s
     = (Py.Returns None, [], s)
  /\ map is_calculation_request (tl example_prompts) = [true; false; true; false; true]
  /\ map (fun q => simple_calculator M (page_selecting q) (extract q))
         (filter is_calculation_request example_prompts)
     = [Py.Returns "The result of '15 * 3' is: 45";
        Py.Returns "The result of '(20 + 5) / 5.' is: 5.0";
        Py.Returns "The result of '1000 - 123' is: 877"]
  /\ map (fun q => calls_generator (run_agent M (page_selecting q) q)) (tl example_prompts)
     = [false; true; false; true; false].
Proof. intros M S gen s. split_conj; vm_compute; reflexivity. Qed.
